(** * Caption parsers: a shallow embedding of [code/caption_parsers.py]

    The development follows the Python module top to bottom: the string
    built-ins the parsers rely on, the data the parsers read (XML elements,
    CSV rows, JSON values), the three [extract] methods and the collector
    [collect_all_caption_data].  Python [str] values are sequences of Unicode
    code points, dictionaries are finite maps, and the body of every
    [try]/[except] block is written in a small state-and-exception monad. *)

From Stdlib Require Import ZArith NArith Ascii String Lia.
From stdpp Require Import gmap list strings.

(** ** Python strings *)

(** A [str] is a list of code points. *)
Abbreviation str := (list N).

(** A literal of the source, given by its ASCII text. *)
Definition lit (s : string) : str :=
  (λ a, N_of_ascii a) <$> list_ascii_of_string s.

(** [c.isspace()] for one code point: the white-space table of CPython. *)
Definition isspace (c : N) : bool :=
  (((9 <=? c) && (c <=? 13)) || ((28 <=? c) && (c <=? 32))
   || (c =? 133) || (c =? 160) || (c =? 5760)
   || ((8192 <=? c) && (c <=? 8202))
   || (c =? 8232) || (c =? 8233) || (c =? 8239) || (c =? 8287)
   || (c =? 12288))%N.

Fixpoint lstrip (s : str) : str :=
  match s with
  | c :: s' => if isspace c then lstrip s' else s
  | [] => []
  end.

Definition rstrip (s : str) : str := reverse (lstrip (reverse s)).

(** [s.strip()] *)
Definition strip (s : str) : str := rstrip (lstrip s).

(** [s.startswith(p)] *)
Fixpoint startswith (p s : str) : bool :=
  match p, s with
  | [], _ => true
  | a :: p', b :: s' => (a =? b)%N && startswith p' s'
  | _ :: _, [] => false
  end.

(** [s.endswith(p)] *)
Definition endswith (p s : str) : bool := startswith (reverse p) (reverse s).

(** [sub in s] *)
Fixpoint contains (sub s : str) : bool :=
  startswith sub s || match s with [] => false | _ :: s' => contains sub s' end.

(** [s.split(sep)[0]] for a non-empty [sep]: the text before the first
    occurrence of [sep], the whole of [s] when there is none. *)
Fixpoint split_head (sep s : str) : str :=
  if startswith sep s then []
  else match s with [] => [] | c :: s' => c :: split_head sep s' end.

(** [s.replace(old, new)] for a non-empty [old]: occurrences are replaced
    from left to right and do not overlap.  [skip] counts the code points of
    an occurrence that was just replaced and still has to be passed over. *)
Fixpoint replace_from (old new : str) (skip : nat) (s : str) : str :=
  match s with
  | [] => []
  | c :: s' =>
      match skip with
      | S k => replace_from old new k s'
      | O =>
          if startswith old s
          then new ++ replace_from old new (Nat.pred (length old)) s'
          else c :: replace_from old new O s'
      end
  end.

Definition replace (old new s : str) : str := replace_from old new O s.

(** [os.path.join(a, p)] as [posixpath] defines it. *)
Definition os_path_join (a p : str) : str :=
  if startswith (lit "/") p then p
  else if bool_decide (a = []) || endswith (lit "/") a then a ++ p
  else a ++ lit "/" ++ p.

(** [os.path.join(a, p, q)]: the components are folded in from the left. *)
Definition os_path_join3 (a p q : str) : str :=
  os_path_join (os_path_join a p) q.

(** Truth value of an [Optional[str]]: [None] and the empty string are
    false. *)
Definition truthy (o : option str) : bool :=
  match o with Some (_ :: _) => true | _ => false end.

#[local] Set Warnings "-register-all,-abstract-large-number".

(** ** Exceptions, console output and the data the parsers read *)

(** The exception classes the handlers of the module tell apart;
    [OtherException] is any other class derived from [Exception]. *)
Inductive exn :=
  | BadZipFile
  | FileNotFoundError
  | JSONDecodeError
  | AttributeError
  | OtherException (cls : str).

(** An expression either has a value or raises. *)
Inductive outcome (A : Type) :=
  | Normal (a : A)
  | Raised (e : exn).
Arguments Normal {A} a.
Arguments Raised {A} e.

(** An [xml.etree] element: tag, attribute dictionary, text and children. *)
Inductive Element :=
  mkElement { tag : str; attrib : list (str * str); text : option str;
              children : list Element }.

(** [cell.get(key)] *)
Fixpoint attrib_get (key : str) (kvs : list (str * str)) : option str :=
  match kvs with
  | [] => None
  | (k, v) :: kvs' => if bool_decide (k = key) then Some v else attrib_get key kvs'
  end.

(** Every element below [e], in document order. *)
Fixpoint descendants (e : Element) : list Element :=
  match e with
  | mkElement _ _ _ cs => flat_map (λ c, c :: descendants c) cs
  end.

(** [tree.findall(".//" + name)] *)
Definition findall (name : str) (root : Element) : list Element :=
  filter (λ el, tag el = name) (descendants root).

(** A value returned by [json.load].  A float is kept as the bit pattern of
    its binary64 representation; an object is the list of its members, whose
    keys are distinct. *)
Inductive json :=
  | JNull
  | JBool (b : bool)
  | JInt (n : Z)
  | JFloat (bits : Z)
  | JStr (s : str)
  | JList (items : list json)
  | JDict (members : list (str * json)).

(** [item[key]] on a [dict]; [None] stands for an absent key. *)
Fixpoint dict_get (key : str) (members : list (str * json)) : option json :=
  match members with
  | [] => None
  | (k, v) :: members' =>
      if bool_decide (k = key) then Some v else dict_get key members'
  end.

(** A row of [csv.DictReader]: column name to field, where a field missing
    from a short line is [None]. *)
Abbreviation csv_row := (gmap str (option str)).

(** [row.get(key)] *)
Definition row_get (key : str) (row : csv_row) : option str :=
  match row !! key with
  | Some field => field
  | None => None
  end.

(** A zip archive opened for reading: the names of its members and, for a
    member, the root element [ET.parse] builds from it (or the exception
    raised on the way). *)
Record archive := {
  namelist : list str;
  parse_member : str → outcome Element
}.

(** What the module sees of the file system. *)
Record filesystem := {
  (** [os.walk(top)]: the [(root, dirs, files)] triples in walk order *)
  os_walk : str → list (str * list str * list str);
  (** [os.path.exists(p)] *)
  os_path_exists : str → bool;
  (** [Path(p).exists()], which lets some [OSError]s through *)
  Path_exists : str → outcome bool;
  (** [zipfile.ZipFile(p, "r")] *)
  ZipFile : str → outcome archive;
  (** [list(csv.DictReader(open(p, ...)))] *)
  read_csv : str → outcome (list csv_row);
  (** [json.load(open(p, ...))] *)
  json_load : str → outcome json
}.

(** The lines the module prints, one constructor per [print] statement of
    the source (statements with the same text share a constructor); the
    arguments are the values interpolated into the text. *)
Inductive message :=
  | WorksheetNotFound (sheet_file xlsx_file : str)
  | ParsingXlsx (xlsx_file : str) (total_rows : nat)
  | RowProgress (idx total_rows : nat)
  | NotAZipFile (xlsx_file : str)
  | ProcessingError (file : str) (e : exn)
  | ParsingCsv (csv_file_path : str) (total_rows : nat)
  | FinishedParsing (file : str) (valid_entries : nat)
  | CsvNotFound (csv_file_path : str)
  | ParsingJson (file_path : str)
  | JsonRootNotList (file_path : str)
  | JsonItemProgress (idx : nat)
  | MalformedJsonItem (file_path : str) (item : json)
  | InvalidJson (file_path : str)
  | JsonReadError (file_path : str) (e : exn)
  | Scanning (base_dir : str)
  | BanglaViewDirMissing (img_dir : str).

(** A caption mapping: image path to the captions collected for it. *)
Abbreviation mapping := (gmap str (list str)).

(** ** The monad of a [try] body

    A [try] body runs against the locals of [extract] that it updates
    ([caption_mapping], and [processed_rows_count] in the CSV parser) and the
    console; it ends normally or by an exception, and in both cases leaves
    the locals as they were at that point. *)
Record frame := {
  caption_mapping : mapping;
  processed_rows_count : nat;
  stdout : list message
}.

(** The locals on entry of [extract]. *)
Definition entry : frame :=
  {| caption_mapping := ∅; processed_rows_count := 0; stdout := [] |}.

Definition M (A : Type) : Type := frame → outcome A * frame.

#[export] Instance M_ret : MRet M := λ A a s, (Normal a, s).

#[export] Instance M_bind : MBind M := λ A B k m s,
  match m s with
  | (Normal a, s') => k a s'
  | (Raised e, s') => (Raised e, s')
  end.

(** The value of an expression that may raise. *)
Definition eval {A} (o : outcome A) : M A := λ s, (o, s).

(** The value of an expression over the locals. *)
Definition gets {A} (f : frame → A) : M A := λ s, (Normal (f s), s).

(** [print(msg)] *)
Definition print (msg : message) : M unit :=
  λ s, (Normal (),
        {| caption_mapping := caption_mapping s;
           processed_rows_count := processed_rows_count s;
           stdout := stdout s ++ [msg] |}).

(** [caption_mapping.setdefault(key, []).append(caption)] *)
Definition setdefault_append (key caption : str) : M unit :=
  λ s, (Normal (),
        {| caption_mapping :=
             <[key := default [] (caption_mapping s !! key) ++ [caption]]>
               (caption_mapping s);
           processed_rows_count := processed_rows_count s;
           stdout := stdout s |}).

(** [caption_mapping[key] = captions] *)
Definition setitem (key : str) (captions : list str) : M unit :=
  λ s, (Normal (),
        {| caption_mapping := <[key := captions]> (caption_mapping s);
           processed_rows_count := processed_rows_count s;
           stdout := stdout s |}).

(** [processed_rows_count += 1] *)
Definition count_processed_row : M unit :=
  λ s, (Normal (),
        {| caption_mapping := caption_mapping s;
           processed_rows_count := S (processed_rows_count s);
           stdout := stdout s |}).

(** [if c: body] *)
Definition when (c : bool) (body : M unit) : M unit :=
  if c then body else mret ().

(** [for idx, x in enumerate(xs, start): body]; an exception leaves the
    loop at once. *)
Fixpoint for_enumerate {X} (start : nat) (xs : list X) (body : nat → X → M unit)
  : M unit :=
  match xs with
  | [] => mret ()
  | x :: xs' => body start x;; for_enumerate (S start) xs' body
  end.

(** [not validate_images or Path(img_path).exists()] *)
Definition image_accepted (fs : filesystem) (validate_images : bool)
    (img_path : str) : M bool :=
  if validate_images then eval (Path_exists fs img_path) else mret true.

(** [validate_images and not Path(img_path).exists()] *)
Definition image_rejected (fs : filesystem) (validate_images : bool)
    (img_path : str) : M bool :=
  if validate_images then
    present ← eval (Path_exists fs img_path); mret (negb present)
  else mret false.

(** [all_captions.update(captions)] *)
Definition dict_update (all_captions captions : mapping) : mapping :=
  captions ∪ all_captions.

Section Parsers.

(** Built-ins of Python that are tables of the Unicode database rather than
    code of the module: [int(text)] ([None] for a [ValueError]),
    [s.lower()], and [str(v)] for a JSON value that is not a string. *)
Variable int : str → option Z.
Variable lower : str → str.
Variable repr : json → str.

Variable fs : filesystem.

(** *** XLSXCaptionParser *)

(** The helper [get_cell_value] of [XLSXCaptionParser.extract]. *)
Definition get_cell_value (shared_strings : list str) (cell : Element)
    : option str :=
  let cell_type := attrib_get (lit "t") (attrib cell) in
  let value_elem := head (filter (λ v, endswith (lit "v") (tag v) = true)
                                 (children cell)) in
  match value_elem with
  | Some v =>
      if truthy (text v) then
        if bool_decide (cell_type = Some (lit "s")) then
          match int (default [] (text v)) with
          | Some idx =>
              if bool_decide (0 ≤ idx < Z.of_nat (length shared_strings))%Z
              then shared_strings !! Z.to_nat idx
              else None
          | None => None
          end
        else text v
      else None
  | None => None
  end.

(** The caption the spreadsheet parser stores. *)
Definition xlsx_formatted_caption (caption_val : str) : str :=
  lit "<start> " ++ strip caption_val ++ lit " <end>".

(** The clean-up of the image name: the [#index] suffix is cut off and
    [*MG*] is replaced. *)
Definition xlsx_image_name (img_name_val : str) : str :=
  let img_name_val :=
    if contains (lit "#") img_name_val
    then split_head (lit "#") img_name_val else img_name_val in
  replace (lit "*MG*") (lit "IMG_") img_name_val.

(** [os.path.join(images_path, name) if images_path else name] *)
Definition image_path (images_path name : str) : str :=
  if truthy (Some images_path) then os_path_join images_path name else name.

(** One iteration of the row loop of [XLSXCaptionParser.extract]. *)
Definition xlsx_row (images_path : str) (validate_images : bool)
    (shared_strings : list str) (total_rows : nat)
    (idx : nat) (row : Element) : M unit :=
  when ((idx mod 500 =? 0)%nat || (idx =? total_rows)%nat)
       (print (RowProgress idx total_rows));;
  let cells := filter (λ el, endswith (lit "c") (tag el) = true) (children row) in
  match cells with
  | cell0 :: cell1 :: _ =>
      let img_name_val := get_cell_value shared_strings cell0 in
      let caption_val := get_cell_value shared_strings cell1 in
      if truthy img_name_val then
        let img_name_val := xlsx_image_name (default [] img_name_val) in
        let img_path := image_path images_path img_name_val in
        ok ← image_accepted fs validate_images img_path;
        when ok
          (when (truthy caption_val)
             (setdefault_append img_path
                (xlsx_formatted_caption (default [] caption_val))))
      else mret ()
  | _ => mret ()
  end.

(** The body of the [try] block of [XLSXCaptionParser.extract]. *)
Definition xlsx_try (has_header : bool) (xlsx_file images_path : str)
    (validate_images : bool) : M unit :=
  xlsx ← eval (ZipFile fs xlsx_file);
  let sheet_file := lit "xl/worksheets/sheet1.xml" in
  let shared_strings_file := lit "xl/sharedStrings.xml" in
  let ns := lit "{http://schemas.openxmlformats.org/spreadsheetml/2006/main}" in
  shared_strings ←
    (if bool_decide (shared_strings_file ∈ namelist xlsx) then
       tree ← eval (parse_member xlsx shared_strings_file);
       mret (omap text (findall (ns ++ lit "t") tree))
     else mret []);
  if bool_decide (sheet_file ∉ namelist xlsx) then
    print (WorksheetNotFound sheet_file xlsx_file)
  else
    tree ← eval (parse_member xlsx sheet_file);
    let rows := findall (ns ++ lit "row") tree in
    let start_row :=
      if has_header && bool_decide (0 < length rows)%nat then 1%nat else 0%nat in
    let total_rows := length (drop start_row rows) in
    print (ParsingXlsx xlsx_file total_rows);;
    for_enumerate 1 (drop start_row rows)
      (xlsx_row images_path validate_images shared_strings total_rows).

(** [XLSXCaptionParser(has_header).extract(xlsx_file, images_path,
    validate_images)]: the mapping returned and the lines printed. *)
Definition xlsx_extract (has_header : bool) (xlsx_file images_path : str)
    (validate_images : bool) : mapping * list message :=
  match xlsx_try has_header xlsx_file images_path validate_images entry with
  | (Normal _, s) => (caption_mapping s, stdout s)
  | (Raised BadZipFile, s) =>
      (caption_mapping s, stdout s ++ [NotAZipFile xlsx_file])
  | (Raised e, s) =>
      (caption_mapping s, stdout s ++ [ProcessingError xlsx_file e])
  end.

(** *** CSVCaptionParser *)

(** The caption the CSV parser stores. *)
Definition csv_formatted_caption (caption_bn : str) : str :=
  lit " <start> " ++ strip caption_bn ++ lit " <end> ".

(** The clean-up of the image name: the [#index] suffix is cut off. *)
Definition csv_image_name (img_name : str) : str :=
  if contains (lit "#") img_name
  then split_head (lit "#") img_name else img_name.

(** One iteration of the row loop of [CSVCaptionParser.extract]. *)
Definition csv_row_step (images_path : str) (validate_images : bool)
    (total_rows : nat) (idx : nat) (row : csv_row) : M unit :=
  when ((idx mod 10000 =? 0)%nat || (idx =? total_rows)%nat)
       (print (RowProgress idx total_rows));;
  let img_name := row_get (lit "caption_id") row in
  let caption_bn := row_get (lit "bengali_caption") row in
  if truthy img_name && truthy caption_bn then
    let img_name := csv_image_name (default [] img_name) in
    let img_path := image_path images_path img_name in
    rejected ← image_rejected fs validate_images img_path;
    if (rejected : bool) then mret ()
    else
      setdefault_append img_path
        (csv_formatted_caption (default [] caption_bn));;
      count_processed_row
  else mret ().

(** The body of the [try] block of [CSVCaptionParser.extract]. *)
Definition csv_try (csv_file_path images_path : str)
    (validate_images : bool) : M unit :=
  rows ← eval (read_csv fs csv_file_path);
  let total_rows := length rows in
  print (ParsingCsv csv_file_path total_rows);;
  for_enumerate 1 rows (csv_row_step images_path validate_images total_rows);;
  n ← gets processed_rows_count;
  print (FinishedParsing csv_file_path n).

(** [CSVCaptionParser().extract(csv_file_path, images_path,
    validate_images)] *)
Definition csv_extract (csv_file_path images_path : str)
    (validate_images : bool) : mapping * list message :=
  match csv_try csv_file_path images_path validate_images entry with
  | (Normal _, s) => (caption_mapping s, stdout s)
  | (Raised FileNotFoundError, s) =>
      (caption_mapping s, stdout s ++ [CsvNotFound csv_file_path])
  | (Raised e, s) =>
      (caption_mapping s, stdout s ++ [ProcessingError csv_file_path e])
  end.

(** *** JSONCaptionParser *)

(** [str(caption)] *)
Definition py_str (caption : json) : str :=
  match caption with JStr s => s | _ => repr caption end.

(** [caption is not None] *)
Definition is_not_None (caption : json) : bool :=
  match caption with JNull => false | _ => true end.

(** The caption the JSON parser stores. *)
Definition json_formatted_caption (caption : json) : str :=
  lit "<start>" ++ strip (py_str caption) ++ lit " ".

(** [isinstance(item, dict)] *)
Definition isinstance_dict (item : json) : bool :=
  match item with JDict _ => true | _ => false end.

(** [key in item], which the source evaluates on a [dict] only. *)
Definition key_in (key : str) (item : json) : bool :=
  match item with
  | JDict members => bool_decide (is_Some (dict_get key members))
  | _ => false
  end.

(** [item[key]] *)
Definition getitem (item : json) (key : str) : outcome json :=
  match item with
  | JDict members =>
      match dict_get key members with
      | Some v => Normal v
      | None => Raised (OtherException (lit "KeyError"))
      end
  | _ => Raised (OtherException (lit "TypeError"))
  end.

(** [filename.strip()]: only a [str] has the method. *)
Definition strip_method (filename : json) : outcome str :=
  match filename with
  | JStr s => Normal (strip s)
  | _ => Raised AttributeError
  end.

(** The guard of the item loop:
    [not isinstance(item, dict) or 'filename' not in item
     or 'caption' not in item]. *)
Definition malformed_item (item : json) : bool :=
  negb (isinstance_dict item)
  || negb (key_in (lit "filename") item)
  || negb (key_in (lit "caption") item).

(** [raw_captions] after the single value has been wrapped in a list. *)
Definition as_caption_list (raw_captions : json) : list json :=
  match raw_captions with
  | JList captions => captions
  | _ => [raw_captions]
  end.

(** The list comprehension that formats the captions. *)
Definition format_captions (raw_captions : list json) : list str :=
  json_formatted_caption
    <$> filter (λ caption, is_not_None caption = true) raw_captions.

(** One iteration of the item loop of [JSONCaptionParser.extract]. *)
Definition json_item (file_path images_path : str) (validate_images : bool)
    (idx : nat) (item : json) : M unit :=
  when (idx mod 1000 =? 0)%nat (print (JsonItemProgress idx));;
  if malformed_item item then print (MalformedJsonItem file_path item)
  else
    filename ← eval (getitem item (lit "filename"));
    img_name_from_json ← eval (strip_method filename);
    let img_name_abs := os_path_join images_path img_name_from_json in
    raw_captions ← eval (getitem item (lit "caption"));
    let raw_captions := as_caption_list raw_captions in
    let formatted_captions := format_captions raw_captions in
    ok ← image_accepted fs validate_images img_name_abs;
    when ok
      (when (bool_decide (formatted_captions ≠ []))
         (setitem img_name_abs formatted_captions)).

(** The body of the [try] block of [JSONCaptionParser.extract]. *)
Definition json_try (file_path images_path : str) (validate_images : bool)
    : M unit :=
  caption_data ← eval (json_load fs file_path);
  match caption_data with
  | JList items =>
      for_enumerate 0 items (json_item file_path images_path validate_images);;
      n ← gets (λ s, size (caption_mapping s));
      print (FinishedParsing file_path n)
  | _ => print (JsonRootNotList file_path)
  end.

(** [JSONCaptionParser().extract(file_path, images_path, validate_images)] *)
Definition json_extract (file_path images_path : str)
    (validate_images : bool) : mapping * list message :=
  match (print (ParsingJson file_path);;
         json_try file_path images_path validate_images) entry with
  | (Normal _, s) => (caption_mapping s, stdout s)
  | (Raised JSONDecodeError, s) =>
      (caption_mapping s, stdout s ++ [InvalidJson file_path])
  | (Raised e, s) =>
      (caption_mapping s, stdout s ++ [JsonReadError file_path e])
  end.

(** *** The collector *)

(** [all_captions.update(captions)] together with the lines the parser
    printed. *)
Definition merge_captions (acc extracted : mapping * list message)
    : mapping * list message :=
  (dict_update acc.1 extracted.1, acc.2 ++ extracted.2).

(** One iteration of the inner loop of [collect_all_caption_data]: the
    file [file] of directory [root], against the consolidated mapping and
    the console so far. *)
Definition collect_file (base_dir : str) (validate_images : bool)
    (root file : str) (acc : mapping * list message)
    : mapping * list message :=
  let lower_file := lower file in
  let file_path := os_path_join root file in
  if endswith (lit ".xlsx") lower_file
     && contains (lit "captioning") lower_file then
    let img_dir := os_path_join root (lit "image") in
    let img_dir := if os_path_exists fs img_dir then img_dir else root in
    merge_captions acc (xlsx_extract true file_path img_dir validate_images)
  else if endswith (lit ".csv") lower_file
          && contains (lit "ban-cap") lower_file then
    let img_dir :=
      os_path_join3 base_dir (lit "Flickr 8k Dataset") (lit "Images") in
    let img_dir := if os_path_exists fs img_dir then img_dir else base_dir in
    merge_captions acc (csv_extract file_path img_dir validate_images)
  else if bool_decide (lower_file = lit "banglaview_dataset.xlsx") then
    let img_dir :=
      os_path_join3 base_dir (lit "flickr30k_images") (lit "flickr30k_images") in
    if os_path_exists fs img_dir then
      merge_captions acc (xlsx_extract false file_path img_dir validate_images)
    else (acc.1, acc.2 ++ [BanglaViewDirMissing img_dir])
  else if endswith (lit ".json") lower_file
          && contains (lit "captions") lower_file then
    let img_dir := os_path_join root (lit "images") in
    let img_dir :=
      if os_path_exists fs img_dir then img_dir
      else os_path_join3 base_dir (lit "rxxch9vw59.2") (lit "images") in
    merge_captions acc (json_extract file_path img_dir validate_images)
  else acc.

(** The inner loop: the files of one directory. *)
Definition collect_dir (base_dir : str) (validate_images : bool)
    (acc : mapping * list message) (triple : str * list str * list str)
    : mapping * list message :=
  let '(root, _, files) := triple in
  foldl (λ acc file, collect_file base_dir validate_images root file acc)
        acc files.

(** [collect_all_caption_data(base_dir, validate_images)]: the consolidated
    mapping and the lines printed. *)
Definition collect_all_caption_data (base_dir : str) (validate_images : bool)
    : mapping * list message :=
  foldl (collect_dir base_dir validate_images)
        (∅, [Scanning base_dir]) (os_walk fs base_dir).

End Parsers.

(** ** Vocabulary of the statements *)

(** The validation step lets the image path through. *)
Definition accepted (fs : filesystem) (validate_images : bool) (img_path : str)
    : Prop :=
  validate_images = false ∨ Path_exists fs img_path = Normal true.

(** The value is a JSON object. *)
Definition record_shaped (item : json) : Prop :=
  ∃ members, item = JDict members.

(** The value is a JSON object with a member named [key]. *)
Definition has_field (key : str) (item : json) : Prop :=
  ∃ members v, item = JDict members ∧ dict_get key members = Some v.

(** The progress line iteration [idx] of the JSON item loop prints. *)
Definition json_progress (idx : nat) : list message :=
  if (idx mod 1000 =? 0)%nat then [JsonItemProgress idx] else [].

(** Iteration [idx] of the JSON item loop skips [item] with a diagnostic: it
    ends normally, leaves the mapping as it is, and prints the warning for
    the item. *)
Definition skipped_with_diagnostic (repr : json → str) (fs : filesystem)
    (file_path images_path : str) (validate_images : bool) (idx : nat)
    (item : json) (s : frame) : Prop :=
  let '(o, s') :=
    json_item repr fs file_path images_path validate_images idx item s in
  o = Normal ()
  ∧ caption_mapping s' = caption_mapping s
  ∧ stdout s' = stdout s ++ json_progress idx ++ [MalformedJsonItem file_path item].

(** Iteration [idx] of the JSON item loop takes [item] past the guard: it
    prints no warning. *)
Definition processed_silently (repr : json → str) (fs : filesystem)
    (file_path images_path : str) (validate_images : bool) (idx : nat)
    (item : json) (s : frame) : Prop :=
  stdout (json_item repr fs file_path images_path validate_images idx item s).2
  = stdout s ++ json_progress idx.

(** The keys of the first locals are keys of the second. *)
Definition keys_within (s1 s2 : frame) : Prop :=
  dom (caption_mapping s1) ⊆ dom (caption_mapping s2).

(** The shared-string table [extract] reads from a workbook: the texts of
    the [t] elements of [xl/sharedStrings.xml], none when the workbook has no
    such member. *)
Definition load_shared_strings (xlsx : archive) : outcome (list str) :=
  if bool_decide (lit "xl/sharedStrings.xml" ∈ namelist xlsx) then
    match parse_member xlsx (lit "xl/sharedStrings.xml") with
    | Normal tree =>
        Normal
          (omap text
             (findall
                (lit "{http://schemas.openxmlformats.org/spreadsheetml/2006/main}"
                 ++ lit "t") tree))
    | Raised e => Raised e
    end
  else Normal [].

(** The rows of the sheet the row loop goes through. *)
Definition data_rows (has_header : bool) (tree : Element) : list Element :=
  let rows :=
    findall
      (lit "{http://schemas.openxmlformats.org/spreadsheetml/2006/main}"
       ++ lit "row") tree in
  drop (if has_header && bool_decide (0 < length rows)%nat then 1%nat else 0%nat)
       rows.

(** The locals when a loop starts: nothing collected, [lines] printed. *)
Definition started (lines : list message) : frame :=
  {| caption_mapping := ∅; processed_rows_count := 0; stdout := lines |}.

(** The files of a walk, each with its directory, in the order the collector
    meets them. *)
Definition walk_files (walk : list (str * list str * list str))
    : list (str * str) :=
  walk ≫= λ '(root, _, files), (λ file, (root, file)) <$> files.

(** The per-file mapping of the collector: what the file contributes to an
    empty consolidated mapping (nothing when the file is not parsed). *)
Definition file_captions (int : str → option Z) (lower : str → str)
    (repr : json → str) (fs : filesystem) (base_dir : str)
    (validate_images : bool) (root file : str) : mapping :=
  (collect_file int lower repr fs base_dir validate_images root file (∅, [])).1.

(** The collector over a list of files. *)
Definition collect_files (int : str → option Z) (lower : str → str)
    (repr : json → str) (fs : filesystem) (base_dir : str)
    (validate_images : bool) (acc : mapping * list message)
    (files : list (str * str)) : mapping * list message :=
  foldl (λ acc '(root, file),
           collect_file int lower repr fs base_dir validate_images root file acc)
        acc files.

(** No key of the mapping holds an empty list of captions. *)
Definition no_empty_entry (m : mapping) : Prop :=
  ∀ key captions, m !! key = Some captions → captions ≠ [].

(** [Path(p).exists()] returns [True]. *)
Definition image_present (fs : filesystem) (p : str) : bool :=
  match Path_exists fs p with Normal true => true | _ => false end.

(** The entries of the mapping whose image is present. *)
Definition keep_present (fs : filesystem) (m : mapping) : mapping :=
  filter (λ kv, image_present fs kv.1 = true) m.

(** [Path(p).exists()] raises for no path. *)
Definition exists_never_raises (fs : filesystem) : Prop :=
  ∀ p e, Path_exists fs p ≠ Raised e.

(** The locals of the run with validation hold the present entries of the
    locals of the run without. *)
Definition present_part (fs : filesystem) (s1 s2 : frame) : Prop :=
  caption_mapping s1 = keep_present fs (caption_mapping s2).

(** What a row of the CSV file has to store: the image path and the
    caption, for a row that has both columns filled. *)
Definition csv_entry (images_path : str) (row : csv_row) : option (str * str) :=
  match row_get (lit "caption_id") row, row_get (lit "bengali_caption") row with
  | Some (c :: name), Some (d :: caption) =>
      Some (image_path images_path (csv_image_name (c :: name)),
            csv_formatted_caption (d :: caption))
  | _, _ => None
  end.

(** What a row of the sheet has to store: the image path and the caption,
    for a row whose first two cells resolve to non-empty texts. *)
Definition xlsx_entry (int : str → option Z) (shared_strings : list str)
    (images_path : str) (row : Element) : option (str * str) :=
  match filter (λ el, endswith (lit "c") (tag el) = true) (children row) with
  | cell0 :: cell1 :: _ =>
      match get_cell_value int shared_strings cell0,
            get_cell_value int shared_strings cell1 with
      | Some (c :: name), Some (d :: caption) =>
          Some (image_path images_path (xlsx_image_name (c :: name)),
                xlsx_formatted_caption (d :: caption))
      | _, _ => None
      end
  | _ => None
  end.

(** What a record of the JSON file has to store: the image path and the
    formatted captions, for an object with a text for file name and at least
    one caption that is not null. *)
Definition json_entry (repr : json → str) (images_path : str) (item : json)
    : option (str * list str) :=
  match item with
  | JDict members =>
      match dict_get (lit "filename") members,
            dict_get (lit "caption") members with
      | Some (JStr filename), Some raw_captions =>
          match format_captions repr (as_caption_list raw_captions) with
          | [] => None
          | captions => Some (os_path_join images_path (strip filename), captions)
          end
      | _, _ => None
      end
  | _ => None
  end.

(** The second components of the entries under [key], in order. *)
Definition under {A} (key : str) (entries : list (str * A)) : list A :=
  (filter (λ e, e.1 = key) entries).*2.

(** The value of a key that holds the captions [l]: absent when there is
    none. *)
Definition some_captions (l : list str) : option (list str) :=
  match l with [] => None | _ => Some l end.

(** No record of the list makes the item loop raise: an object that has
    both members has a text for file name. *)
Definition filenames_are_text (items : list json) : Prop :=
  ∀ members v, JDict members ∈ items →
    dict_get (lit "filename") members = Some v →
    is_Some (dict_get (lit "caption") members) →
    ∃ filename, v = JStr filename.

(** The per-file mappings of the files agree on the keys they share. *)
Definition files_agree (int : str → option Z) (lower : str → str)
    (repr : json → str) (fs : filesystem) (base_dir : str)
    (validate_images : bool) (files : list (str * str)) : Prop :=
  ∀ root1 file1 root2 file2 K v1 v2,
    (root1, file1) ∈ files → (root2, file2) ∈ files →
    file_captions int lower repr fs base_dir validate_images root1 file1 !! K
      = Some v1 →
    file_captions int lower repr fs base_dir validate_images root2 file2 !! K
      = Some v2 →
    v1 = v2.

(** The number of captions the mapping holds, over all keys. *)
Definition caption_count (m : mapping) : nat :=
  map_fold (λ _ captions n, length captions + n) 0 m.

(** ** Sample inputs *)

Module Samples.

(** [s.lower()] on ASCII text. *)
Definition ascii_lower (s : str) : str :=
  (λ c, if (65 <=? c)%N && (c <=? 90)%N then (c + 32)%N else c) <$> s.

(** [int(text)] on plain decimal numerals. *)
Definition decimal_int (s : str) : option Z :=
  if bool_decide (s ≠ []) && forallb (λ c, (48 <=? c)%N && (c <=? 57)%N) s
  then Some (foldl (λ n c, 10 * n + Z.of_N (c - 48))%Z 0%Z s)
  else None.

(** [str(v)] for the values the samples use. *)
Definition plain_repr (v : json) : str :=
  match v with
  | JNull => lit "None"
  | JBool true => lit "True"
  | JBool false => lit "False"
  | _ => lit "?"
  end.

Definition ns : str :=
  lit "{http://schemas.openxmlformats.org/spreadsheetml/2006/main}".

(** A cell holding a number or inline text. *)
Definition plain_cell (v : string) : Element :=
  mkElement (ns ++ lit "c") [] None [mkElement (ns ++ lit "v") [] (Some (lit v)) []].

(** A cell that refers to the shared-string table. *)
Definition shared_cell (v : string) : Element :=
  mkElement (ns ++ lit "c") [(lit "t", lit "s")] None
    [mkElement (ns ++ lit "v") [] (Some (lit v)) []].

Definition sheet_row (cells : list Element) : Element :=
  mkElement (ns ++ lit "row") [] None cells.

Definition worksheet (rows : list Element) : Element :=
  mkElement (ns ++ lit "worksheet") [] None
    [mkElement (ns ++ lit "sheetData") [] None rows].

Definition string_item (v : string) : Element :=
  mkElement (ns ++ lit "si") [] None [mkElement (ns ++ lit "t") [] (Some (lit v)) []].

Definition string_table (items : list Element) : Element :=
  mkElement (ns ++ lit "sst") [] None items.

(** A workbook with a shared-string table and one sheet. *)
Definition workbook (strings sheet : Element) : archive :=
  {| namelist := [lit "xl/sharedStrings.xml"; lit "xl/worksheets/sheet1.xml"];
     parse_member := λ name,
       if bool_decide (name = lit "xl/sharedStrings.xml") then Normal strings
       else Normal sheet |}.

(** A disk without directories on which every path holds the same three
    files (one per format) and no image exists. *)
Definition flat_disk (xlsx : outcome archive) (csv : outcome (list csv_row))
    (js : outcome json) : filesystem :=
  {| os_walk := λ _, [];
     os_path_exists := λ _, false;
     Path_exists := λ _, Normal false;
     ZipFile := λ _, xlsx;
     read_csv := λ _, csv;
     json_load := λ _, js |}.

(** A sheet with a header row and three rows, two of them for one image. *)
Definition photo_sheet : Element :=
  worksheet
    [sheet_row [plain_cell "image"; plain_cell "caption"];
     sheet_row [plain_cell "photo1.jpg#1"; plain_cell " Hello "];
     sheet_row [plain_cell "photo1.jpg#2"; plain_cell "World"];
     sheet_row [plain_cell "*MG*2.jpg#0"; plain_cell "Third"]].

Definition caption_row (caption_id bengali_caption : string) : csv_row :=
  {[ lit "caption_id" := Some (lit caption_id);
     lit "bengali_caption" := Some (lit bengali_caption) ]}.

Definition photo_rows : list csv_row :=
  [caption_row "img2.jpg#0" " first "; caption_row "img2.jpg#1" "second"].

Definition record (filename : string) (caption : json) : json :=
  JDict [(lit "filename", JStr (lit filename)); (lit "caption", caption)].

Definition photo_records : json :=
  JList [record " a.jpg " (JList [JStr (lit "x"); JNull; JStr (lit " y ")]);
         record "b#1*MG*.jpg" (JStr (lit "z"))].

Definition photo_disk : filesystem :=
  flat_disk (Normal (workbook (string_table []) photo_sheet))
            (Normal photo_rows) (Normal photo_records).

(** A record with a file name and no caption. *)
Definition name_only_record : json :=
  JDict [(lit "filename", JStr (lit "a.jpg"))].

(** Records of which the second has a number for file name. *)
Definition faulty_records : list json :=
  [record "a.jpg" (JStr (lit "x"));
   JDict [(lit "filename", JInt 3); (lit "caption", JStr (lit "y"))];
   record "c.jpg" (JStr (lit "z"))].

Definition faulty_disk : filesystem :=
  flat_disk (Raised BadZipFile) (Raised FileNotFoundError)
            (Normal (JList faulty_records)).

(** A directory with two JSON files that describe the same image, and a
    file that matches no route. *)
Definition two_file_disk : filesystem :=
  {| os_walk := λ _,
       [(lit "data", [],
         [lit "captions_a.json"; lit "Captions_B.json"; lit "notes.txt"])];
     os_path_exists := λ _, false;
     Path_exists := λ _, Normal false;
     ZipFile := λ _, Raised BadZipFile;
     read_csv := λ _, Raised FileNotFoundError;
     json_load := λ p,
       if bool_decide (p = lit "data/captions_a.json")
       then Normal (JList [record "a.jpg" (JStr (lit "first"))])
       else Normal (JList [record "a.jpg" (JStr (lit "second"))]) |}.

(** The sample disk with one image in place. *)
Definition one_image_disk : filesystem :=
  {| os_walk := λ _, [];
     os_path_exists := λ _, false;
     Path_exists := λ p, Normal (bool_decide (p = lit "root/photo1.jpg"));
     ZipFile := λ _, Normal (workbook (string_table []) photo_sheet);
     read_csv := λ _, Normal photo_rows;
     json_load := λ _, Normal photo_records |}.

(** A directory with two JSON files that agree on the image they share,
    and the image of one record in place. *)
Definition album_disk : filesystem :=
  {| os_walk := λ _,
       [(lit "data", [], [lit "captions_a.json"; lit "captions_b.json"])];
     os_path_exists := λ _, false;
     Path_exists := λ p,
       Normal (bool_decide (p = lit "data/rxxch9vw59.2/images/a.jpg"));
     ZipFile := λ _, Raised BadZipFile;
     read_csv := λ _, Raised FileNotFoundError;
     json_load := λ p,
       if bool_decide (p = lit "data/captions_a.json")
       then Normal (JList [record "a.jpg" (JStr (lit "x"));
                           record "c.jpg" (JStr (lit "z"))])
       else Normal (JList [record "b.jpg" (JStr (lit "y"));
                           record "c.jpg" (JStr (lit "z"))]) |}.

End Samples.

(** * Properties *)

(** ** Strings *)

Lemma lit_hash : lit "#" = [35%N].
Proof. reflexivity. Qed.

(** A one-character needle is found exactly when it is an element. *)
Lemma contains_char (c : N) (s : str) : contains [c] s = true ↔ c ∈ s.
Proof.
  induction s as [|d s IH]; simpl.
  - split; [discriminate | intros H; inversion H].
  - rewrite andb_true_r, orb_true_iff, N.eqb_eq, elem_of_cons. tauto.
Qed.

(** [split] cuts at the first occurrence of the separator. *)
Lemma split_head_char (c : N) (a b : str) :
  c ∉ a → split_head [c] (a ++ c :: b) = a.
Proof.
  induction a as [|d a IH]; intros Hc; simpl.
  - rewrite N.eqb_refl. reflexivity.
  - apply not_elem_of_cons in Hc as [Hd Ha].
    destruct (N.eqb_spec c d) as [->|_]; [done|]. simpl. by rewrite IH.
Qed.

Lemma split_head_absent (sep s : str) :
  contains sep s = false → sep ≠ [] → split_head sep s = s.
Proof.
  intros H Hsep. induction s as [|d s IH]; simpl in *.
  - destruct sep; [done|reflexivity].
  - apply orb_false_iff in H as [-> H]. by rewrite IH.
Qed.

(** [replace] leaves a string without occurrence of [old] as it is. *)
Lemma replace_absent (old new s : str) :
  contains old s = false → replace old new s = s.
Proof.
  unfold replace. induction s as [|d s IH]; [reflexivity|].
  cbn [contains replace_from]. intros [H1 H2]%orb_false_iff.
  rewrite H1. by rewrite IH.
Qed.

(** ** The monad *)

Lemma bind_run {A B} (m : M A) (k : A → M B) (s : frame) :
  (m ≫= k) s =
  match m s with
  | (Normal a, s') => k a s'
  | (Raised e, s') => (Raised e, s')
  end.
Proof. reflexivity. Qed.

(** Unfolds the primitives of the monad, leaving strings and arithmetic
    alone. *)
Ltac run :=
  cbv beta iota delta
    [mbind M_bind mret M_ret when print eval gets setdefault_append setitem
     count_processed_row image_accepted image_rejected] in *.

(** Case analysis along the branches of a loop body. *)
Ltac run_cases :=
  run; repeat (case_match; run); simplify_eq;
  cbn [caption_mapping stdout processed_rows_count fst snd] in *.

(** ** Loops *)

Section Loops.
Context {X : Type}.
Implicit Types (body : nat → X → M unit) (xs : list X) (s : frame).

Lemma for_enumerate_cons start x xs body s :
  for_enumerate start (x :: xs) body s =
  match body start x s with
  | (Normal _, s') => for_enumerate (S start) xs body s'
  | (Raised e, s') => (Raised e, s')
  end.
Proof. reflexivity. Qed.

(** A loop over [xs ++ ys] is the loop over [xs] followed, unless that
    one raised, by the loop over [ys]. *)
Lemma for_enumerate_app start xs ys body s :
  for_enumerate start (xs ++ ys) body s =
  match for_enumerate start xs body s with
  | (Normal _, s') => for_enumerate (start + length xs) ys body s'
  | (Raised e, s') => (Raised e, s')
  end.
Proof.
  revert start s. induction xs as [|x xs IH]; intros start s.
  - simpl. by rewrite Nat.add_0_r.
  - rewrite <- app_comm_cons, !for_enumerate_cons.
    destruct (body start x s) as [[[]|e] s1]; [|done].
    rewrite IH. simpl. by rewrite Nat.add_succ_r.
Qed.

(** A property of the locals that every iteration keeps is kept by the
    loop, however it ends. *)
Lemma for_enumerate_inv (P : frame → Prop) body :
  (∀ i x s o s', P s → body i x s = (o, s') → P s') →
  ∀ start xs s o s', P s → for_enumerate start xs body s = (o, s') → P s'.
Proof.
  intros Hstep start xs. revert start.
  induction xs as [|x xs IH]; intros start s o s' HP.
  - intros [= <- <-]. done.
  - rewrite for_enumerate_cons.
    destruct (body start x s) as [[[]|e] s1] eqn:Hb.
    + apply IH. eapply Hstep; eauto.
    + intros [= <- <-]. eapply Hstep; eauto.
Qed.

(** A loop that ends by an exception has completed a prefix of its
    iterations, and the next one raised. *)
Lemma for_enumerate_raised start xs body s e s' :
  for_enumerate start xs body s = (Raised e, s') →
  ∃ done x rest s1,
    xs = done ++ x :: rest
    ∧ for_enumerate start done body s = (Normal (), s1)
    ∧ body (start + length done) x s1 = (Raised e, s').
Proof.
  revert start s. induction xs as [|x xs IH]; intros start s.
  - discriminate.
  - rewrite for_enumerate_cons.
    destruct (body start x s) as [[[]|e1] s1] eqn:Hb.
    + intros H. apply IH in H as (done & y & rest & s2 & -> & Hdone & Hy).
      exists (x :: done), y, rest, s2. split; [done|].
      rewrite for_enumerate_cons, Hb. split; [done|].
      simpl. by rewrite Nat.add_succ_r.
    + intros [= <- <-]. exists [], x, xs, s.
      rewrite Nat.add_0_r. done.
Qed.

(** Two runs of a loop over the same items, related by [R]: when every
    iteration keeps [R], and the second run of an iteration raises only if
    the first one does, and [R] survives further iterations of the second
    run alone, the final locals are related. *)
Lemma for_enumerate_rel (R : frame → frame → Prop) body1 body2 :
  (∀ i x s1 s2 o1 o2 s1' s2',
      R s1 s2 → body1 i x s1 = (o1, s1') → body2 i x s2 = (o2, s2') →
      R s1' s2' ∧ (o1 = Normal () → o2 = Normal ())) →
  (∀ i x s1 s2 o2 s2', R s1 s2 → body2 i x s2 = (o2, s2') → R s1 s2') →
  ∀ start xs s1 s2 o1 o2 s1' s2',
    R s1 s2 →
    for_enumerate start xs body1 s1 = (o1, s1') →
    for_enumerate start xs body2 s2 = (o2, s2') →
    R s1' s2'.
Proof.
  intros Hstep Hmono start xs. revert start.
  induction xs as [|x xs IH]; intros start s1 s2 o1 o2 s1' s2' HR.
  - intros [= <- <-] [= <- <-]. done.
  - rewrite !for_enumerate_cons.
    destruct (body1 start x s1) as [[[]|e1] t1] eqn:H1;
      destruct (body2 start x s2) as [[[]|e2] t2] eqn:H2;
      destruct (Hstep _ _ _ _ _ _ _ _ HR H1 H2) as [HR' Ho].
    + apply IH. done.
    + specialize (Ho eq_refl). discriminate.
    + intros [= <- <-] H. revert H.
      apply (for_enumerate_inv (R t1) body2); [|done].
      intros. eapply Hmono; eauto.
    + intros [= <- <-] [= <- <-]. done.
Qed.
End Loops.

(** ** The caption wrappers *)

Lemma xlsx_formatted_caption_ends (caption_val : str) :
  head (xlsx_formatted_caption caption_val) = Some 60%N
  ∧ last (xlsx_formatted_caption caption_val) = Some 62%N.
Proof.
  split; [reflexivity|]. unfold xlsx_formatted_caption.
  change (lit " <end>") with (lit " <end" ++ [62%N]).
  by rewrite !app_assoc, last_snoc.
Qed.

Lemma csv_formatted_caption_ends (caption_bn : str) :
  head (csv_formatted_caption caption_bn) = Some 32%N
  ∧ last (csv_formatted_caption caption_bn) = Some 32%N.
Proof.
  split; [reflexivity|]. unfold csv_formatted_caption.
  change (lit " <end> ") with (lit " <end>" ++ [32%N]).
  by rewrite !app_assoc, last_snoc.
Qed.

Lemma json_formatted_caption_ends repr (caption : json) :
  head (json_formatted_caption repr caption) = Some 60%N
  ∧ last (json_formatted_caption repr caption) = Some 32%N.
Proof.
  split; [reflexivity|]. unfold json_formatted_caption.
  change (lit " ") with [32%N].
  by rewrite !app_assoc, last_snoc.
Qed.

#[local] Opaque lit.

(** ** The loop bodies *)

Section Bodies.
Variable int : str → option Z.
Variable lower : str → str.
Variable repr : json → str.
Variable fs : filesystem.

(** What one row of the spreadsheet does to the mapping: nothing, or one
    caption appended under one key. *)
Lemma xlsx_row_effect images_path validate shared total idx row s o s' :
  xlsx_row int fs images_path validate shared total idx row s = (o, s') →
  caption_mapping s' = caption_mapping s
  ∨ ∃ key c,
      o = Normal ()
      ∧ caption_mapping s' =
        <[key := default [] (caption_mapping s !! key)
                 ++ [xlsx_formatted_caption c]]> (caption_mapping s).
Proof. unfold xlsx_row. intros H. run_cases; eauto. Qed.

(** The same for one row of the CSV file. *)
Lemma csv_row_effect images_path validate total idx row s o s' :
  csv_row_step fs images_path validate total idx row s = (o, s') →
  caption_mapping s' = caption_mapping s
  ∨ ∃ key c,
      o = Normal ()
      ∧ caption_mapping s' =
        <[key := default [] (caption_mapping s !! key)
                 ++ [csv_formatted_caption c]]> (caption_mapping s).
Proof. unfold csv_row_step. intros H. run_cases; eauto. Qed.

(** One item of the JSON file does nothing to the mapping, or assigns the
    formatted captions of the item to the path of its file name. *)
Lemma json_item_effect file_path images_path validate idx item s o s' :
  json_item repr fs file_path images_path validate idx item s = (o, s') →
  caption_mapping s' = caption_mapping s
  ∨ ∃ members filename raw_captions,
      item = JDict members
      ∧ dict_get (lit "filename") members = Some (JStr filename)
      ∧ dict_get (lit "caption") members = Some raw_captions
      ∧ format_captions repr (as_caption_list raw_captions) ≠ []
      ∧ o = Normal ()
      ∧ caption_mapping s' =
        <[os_path_join images_path (strip filename) :=
            format_captions repr (as_caption_list raw_captions)]>
          (caption_mapping s).
Proof.
  unfold json_item, getitem, strip_method. intros H.
  run_cases; eauto; right; eexists _, _, _; split_and!; eauto;
    by eapply bool_decide_eq_true_1.
Qed.

(** An iteration that raises has not touched the mapping. *)
Lemma xlsx_row_raised images_path validate shared total idx row s e s' :
  xlsx_row int fs images_path validate shared total idx row s = (Raised e, s') →
  caption_mapping s' = caption_mapping s.
Proof. intros [?|(? & ? & ? & ?)]%xlsx_row_effect; [done|discriminate]. Qed.

Lemma csv_row_raised images_path validate total idx row s e s' :
  csv_row_step fs images_path validate total idx row s = (Raised e, s') →
  caption_mapping s' = caption_mapping s.
Proof. intros [?|(? & ? & ? & ?)]%csv_row_effect; [done|discriminate]. Qed.

Lemma json_item_raised file_path images_path validate idx item s e s' :
  json_item repr fs file_path images_path validate idx item s = (Raised e, s') →
  caption_mapping s' = caption_mapping s.
Proof.
  intros [?|(? & ? & ? & ? & ? & ? & ? & ? & ?)]%json_item_effect;
    [done|discriminate].
Qed.

(** *** What [extract] returns *)

(** The handlers of [extract] cover every exception: whatever way the
    [try] body ends, [extract] returns the mapping of that moment. *)
Lemma xlsx_extract_mapping has_header xlsx_file images_path validate :
  (xlsx_extract int fs has_header xlsx_file images_path validate).1 =
  caption_mapping (xlsx_try int fs has_header xlsx_file images_path validate entry).2.
Proof.
  unfold xlsx_extract.
  by destruct (xlsx_try _ _ _ _ _ _ _) as [[[]|[]] s].
Qed.

Lemma csv_extract_mapping csv_file_path images_path validate :
  (csv_extract fs csv_file_path images_path validate).1 =
  caption_mapping (csv_try fs csv_file_path images_path validate entry).2.
Proof.
  unfold csv_extract.
  by destruct (csv_try _ _ _ _ _) as [[[]|[]] s].
Qed.

Lemma json_extract_mapping file_path images_path validate :
  (json_extract repr fs file_path images_path validate).1 =
  caption_mapping
    (json_try repr fs file_path images_path validate
       (print (ParsingJson file_path) entry).2).2.
Proof.
  unfold json_extract. rewrite bind_run. cbn [print snd].
  by destruct (json_try _ _ _ _ _ _) as [[[]|[]] s].
Qed.

(** A property of the mapping that every iteration of the loop keeps holds
    of the mapping the [try] body leaves. *)
Lemma xlsx_try_inv (P : mapping → Prop) has_header xlsx_file images_path
    validate s o s' :
  (∀ shared total i row s o s',
      P (caption_mapping s) →
      xlsx_row int fs images_path validate shared total i row s = (o, s') →
      P (caption_mapping s')) →
  P (caption_mapping s) →
  xlsx_try int fs has_header xlsx_file images_path validate s = (o, s') →
  P (caption_mapping s').
Proof.
  intros Hrow HP. unfold xlsx_try. run. intros H.
  repeat (case_match; run); simplify_eq; try done;
    match goal with
    | H : for_enumerate _ _ _ _ = _ |- _ =>
        revert H; apply (for_enumerate_inv (λ s, P (caption_mapping s)));
          [intros; eapply Hrow; eauto | done]
    end.
Qed.

Lemma csv_try_inv (P : mapping → Prop) csv_file_path images_path
    validate s o s' :
  (∀ total i row s o s',
      P (caption_mapping s) →
      csv_row_step fs images_path validate total i row s = (o, s') →
      P (caption_mapping s')) →
  P (caption_mapping s) →
  csv_try fs csv_file_path images_path validate s = (o, s') →
  P (caption_mapping s').
Proof.
  intros Hrow HP. unfold csv_try. run. intros H.
  destruct (read_csv fs csv_file_path) as [rows|e]; [|by simplify_eq].
  destruct (for_enumerate _ _ _ _) as [[[]|e] s1] eqn:Hloop;
    simplify_eq; cbn [caption_mapping];
    revert Hloop; apply (for_enumerate_inv (λ s, P (caption_mapping s)));
      solve [intros; eapply Hrow; eauto | done].
Qed.

Lemma json_try_inv (P : mapping → Prop) file_path images_path
    validate s o s' :
  (∀ i item s o s',
      P (caption_mapping s) →
      json_item repr fs file_path images_path validate i item s = (o, s') →
      P (caption_mapping s')) →
  P (caption_mapping s) →
  json_try repr fs file_path images_path validate s = (o, s') →
  P (caption_mapping s').
Proof.
  intros Hitem HP. unfold json_try. run. intros H.
  destruct (json_load fs file_path) as [caption_data|e]; [|by simplify_eq].
  destruct caption_data; simplify_eq; try done.
  destruct (for_enumerate _ _ _ _) as [[[]|e] s1] eqn:Hloop;
    simplify_eq; cbn [caption_mapping];
    revert Hloop; apply (for_enumerate_inv (λ s, P (caption_mapping s)));
      solve [intros; eapply Hitem; eauto | done].
Qed.

End Bodies.


(** ** Rows and records that are kept *)

Section Kept.
Variable int : str → option Z.
Variable repr : json → str.
Variable fs : filesystem.

Lemma truthy_Some (v : str) : v ≠ [] → truthy (Some v) = true.
Proof. by destruct v. Qed.

(** A spreadsheet row with a name, a caption and an accepted image appends
    its caption under the path of the cleaned name. *)
Lemma xlsx_row_kept images_path validate shared total idx row
    cell0 cell1 cells name caption s :
  filter (λ el, endswith (lit "c") (tag el) = true) (children row)
    = cell0 :: cell1 :: cells →
  get_cell_value int shared cell0 = Some name → name ≠ [] →
  get_cell_value int shared cell1 = Some caption → caption ≠ [] →
  accepted fs validate (image_path images_path (xlsx_image_name name)) →
  (xlsx_row int fs images_path validate shared total idx row s).1 = Normal ()
  ∧ caption_mapping
      (xlsx_row int fs images_path validate shared total idx row s).2 =
    <[image_path images_path (xlsx_image_name name) :=
        default [] (caption_mapping s
                      !! image_path images_path (xlsx_image_name name))
        ++ [xlsx_formatted_caption caption]]> (caption_mapping s).
Proof.
  intros Hcells Hname Hn Hcap Hc Hacc. unfold xlsx_row.
  rewrite Hcells, Hname, Hcap, !truthy_Some by done.
  cbn [from_option id]. run.
  destruct (_ || _); destruct Hacc as [->|Hacc];
    try destruct validate; rewrite ?Hacc; done.
Qed.

(** The same for a row of the CSV file. *)
Lemma csv_row_kept images_path validate total idx row name caption s :
  row_get (lit "caption_id") row = Some name → name ≠ [] →
  row_get (lit "bengali_caption") row = Some caption → caption ≠ [] →
  accepted fs validate (image_path images_path (csv_image_name name)) →
  (csv_row_step fs images_path validate total idx row s).1 = Normal ()
  ∧ caption_mapping (csv_row_step fs images_path validate total idx row s).2 =
    <[image_path images_path (csv_image_name name) :=
        default [] (caption_mapping s
                      !! image_path images_path (csv_image_name name))
        ++ [csv_formatted_caption caption]]> (caption_mapping s).
Proof.
  intros Hname Hn Hcap Hc Hacc. unfold csv_row_step.
  rewrite Hname, Hcap, !truthy_Some by done.
  cbn [from_option id andb]. run.
  destruct (_ || _); destruct Hacc as [->|Hacc];
    try destruct validate; rewrite ?Hacc; done.
Qed.

(** A JSON record with a file name, captions and an accepted image assigns
    its captions to the path of the trimmed file name. *)
Lemma json_item_kept file_path images_path validate idx members filename
    raw_captions s :
  dict_get (lit "filename") members = Some (JStr filename) →
  dict_get (lit "caption") members = Some raw_captions →
  format_captions repr (as_caption_list raw_captions) ≠ [] →
  accepted fs validate (os_path_join images_path (strip filename)) →
  (json_item repr fs file_path images_path validate idx (JDict members) s).1
    = Normal ()
  ∧ caption_mapping
      (json_item repr fs file_path images_path validate idx (JDict members) s).2 =
    <[os_path_join images_path (strip filename) :=
        format_captions repr (as_caption_list raw_captions)]> (caption_mapping s).
Proof.
  intros Hname Hcap Hfmt Hacc.
  unfold json_item, malformed_item, isinstance_dict, key_in, getitem.
  rewrite Hname, Hcap. rewrite !bool_decide_eq_true_2 by eauto.
  cbn [negb orb]. run. cbn [strip_method].
  rewrite (bool_decide_eq_true_2 _ Hfmt).
  destruct (_ =? _)%nat; destruct Hacc as [->|Hacc];
    try destruct validate; rewrite ?Hacc; done.
Qed.

End Kept.

(** ** Accumulation within one file *)

Section Accumulation.
Variable int : str → option Z.
Variable repr : json → str.
Variable fs : filesystem.

(** Appending under any key keeps what a key already holds as a prefix. *)
Lemma append_keeps_prefix (m : mapping) (key key' : str) (captions : list str)
    (c : str) :
  (∃ more, m !! key = Some (captions ++ more)) →
  ∃ more,
    <[key' := default [] (m !! key') ++ [c]]> m !! key = Some (captions ++ more).
Proof.
  intros [more Hm]. rewrite lookup_insert. case_decide as Hk.
  - subst key'. rewrite Hm. exists (more ++ [c]). simpl. by rewrite app_assoc.
  - by exists more.
Qed.

(** C7. Within one extraction pass the spreadsheet and CSV parsers only ever
    append: a row that is kept puts its caption behind the captions its key
    already has, and whatever the loop does afterwards, the captions a key
    holds stay in place as a prefix.  The JSON parser assigns: a record that
    is kept stores its own caption list under its key, whatever an earlier
    record stored there. *)
Theorem within_file_accumulation :
  (∀ images_path validate shared total idx row cell0 cell1 cells name caption s,
      filter (λ el, endswith (lit "c") (tag el) = true) (children row)
        = cell0 :: cell1 :: cells →
      get_cell_value int shared cell0 = Some name → name ≠ [] →
      get_cell_value int shared cell1 = Some caption → caption ≠ [] →
      accepted fs validate (image_path images_path (xlsx_image_name name)) →
      caption_mapping
        (xlsx_row int fs images_path validate shared total idx row s).2 =
      <[image_path images_path (xlsx_image_name name) :=
          default [] (caption_mapping s
                        !! image_path images_path (xlsx_image_name name))
          ++ [xlsx_formatted_caption caption]]> (caption_mapping s))
  ∧ (∀ images_path validate shared total start rows s key captions,
        caption_mapping s !! key = Some captions →
        ∃ more,
          caption_mapping
            (for_enumerate start rows
               (xlsx_row int fs images_path validate shared total) s).2 !! key
          = Some (captions ++ more))
  ∧ (∀ images_path validate total idx row name caption s,
        row_get (lit "caption_id") row = Some name → name ≠ [] →
        row_get (lit "bengali_caption") row = Some caption → caption ≠ [] →
        accepted fs validate (image_path images_path (csv_image_name name)) →
        caption_mapping
          (csv_row_step fs images_path validate total idx row s).2 =
        <[image_path images_path (csv_image_name name) :=
            default [] (caption_mapping s
                          !! image_path images_path (csv_image_name name))
            ++ [csv_formatted_caption caption]]> (caption_mapping s))
  ∧ (∀ images_path validate total start rows s key captions,
        caption_mapping s !! key = Some captions →
        ∃ more,
          caption_mapping
            (for_enumerate start rows
               (csv_row_step fs images_path validate total) s).2 !! key
          = Some (captions ++ more))
  ∧ (∀ file_path images_path validate idx members filename raw_captions s,
        dict_get (lit "filename") members = Some (JStr filename) →
        dict_get (lit "caption") members = Some raw_captions →
        format_captions repr (as_caption_list raw_captions) ≠ [] →
        accepted fs validate (os_path_join images_path (strip filename)) →
        caption_mapping
          (json_item repr fs file_path images_path validate idx
             (JDict members) s).2
          !! os_path_join images_path (strip filename)
        = Some (format_captions repr (as_caption_list raw_captions))).
Proof.
  split_and!.
  - intros. by eapply xlsx_row_kept.
  - intros images_path validate shared total start rows s key captions Hs.
    destruct (for_enumerate _ _ _ _) as [o s'] eqn:Hloop. revert Hloop.
    apply (for_enumerate_inv
             (λ s, ∃ more, caption_mapping s !! key = Some (captions ++ more)));
      [|exists []; by rewrite app_nil_r].
    intros i row s0 o0 s0' HP [->|(k & c & _ & ->)]%xlsx_row_effect; [done|].
    by apply append_keeps_prefix.
  - intros. by eapply csv_row_kept.
  - intros images_path validate total start rows s key captions Hs.
    destruct (for_enumerate _ _ _ _) as [o s'] eqn:Hloop. revert Hloop.
    apply (for_enumerate_inv
             (λ s, ∃ more, caption_mapping s !! key = Some (captions ++ more)));
      [|exists []; by rewrite app_nil_r].
    intros i row s0 o0 s0' HP [->|(k & c & _ & ->)]%csv_row_effect; [done|].
    by apply append_keeps_prefix.
  - intros file_path images_path validate idx members filename raw s
      Hname Hcap Hfmt Hacc.
    destruct (json_item_kept repr fs file_path images_path validate idx
                members filename raw s Hname Hcap Hfmt Hacc) as [_ ->].
    apply lookup_insert_eq.
Qed.

End Accumulation.

(** ** Keys of the JSON parser *)

Section JsonKeys.
Variable repr : json → str.
Variable fs : filesystem.

(** [for_enumerate_inv] where an iteration may rely on its item being one of
    the list. *)
Lemma for_enumerate_inv_elem {X} (P : frame → Prop) (xs : list X)
    (body : nat → X → M unit) :
  (∀ i x s o s', x ∈ xs → P s → body i x s = (o, s') → P s') →
  ∀ start s o s', P s → for_enumerate start xs body s = (o, s') → P s'.
Proof.
  intros Hstep.
  assert (∀ ys, ys ⊆ xs → ∀ start s o s',
             P s → for_enumerate start ys body s = (o, s') → P s') as Hgen.
  { induction ys as [|y ys IH]; intros Hsub start s o s' HP.
    - intros [= <- <-]. done.
    - rewrite for_enumerate_cons.
      assert (y ∈ xs) as Hy by (apply Hsub; left).
      assert (ys ⊆ xs) as Hys by (intros z Hz; apply Hsub; by right).
      destruct (body start y s) as [[[]|e] s1] eqn:Hb.
      + apply IH; [done|]. eapply Hstep; eauto.
      + intros [= <- <-]. eapply Hstep; eauto. }
  by apply Hgen.
Qed.

(** C10. The JSON parser neither cuts a [#] suffix nor rewrites [*MG*]:
    a record that is kept is stored under the join of [images_path] with its
    file name, trimmed of white space and otherwise as it is; and every key
    of the mapping [extract] returns is such a join for a record of the
    file. *)
Theorem json_key_is_joined_trimmed_filename :
  (∀ file_path images_path validate idx members filename raw_captions s,
      dict_get (lit "filename") members = Some (JStr filename) →
      dict_get (lit "caption") members = Some raw_captions →
      format_captions repr (as_caption_list raw_captions) ≠ [] →
      accepted fs validate (os_path_join images_path (strip filename)) →
      caption_mapping
        (json_item repr fs file_path images_path validate idx
           (JDict members) s).2 =
      <[os_path_join images_path (strip filename) :=
          format_captions repr (as_caption_list raw_captions)]>
        (caption_mapping s))
  ∧ (∀ file_path images_path validate key,
        key ∈ dom (json_extract repr fs file_path images_path validate).1 →
        ∃ items members filename,
          json_load fs file_path = Normal (JList items)
          ∧ JDict members ∈ items
          ∧ dict_get (lit "filename") members = Some (JStr filename)
          ∧ key = os_path_join images_path (strip filename)).
Proof.
  split.
  - intros. by eapply json_item_kept.
  - intros file_path images_path validate key.
    rewrite json_extract_mapping. unfold json_try. run.
    cbn [snd caption_mapping entry].
    destruct (json_load fs file_path) as [caption_data|e];
      [|by intros ?%elem_of_dom%is_Some_None].
    destruct caption_data as [| | | | |items|];
      try by intros ?%elem_of_dom%is_Some_None.
    intros Hkey. exists items.
    cut (∃ members filename,
            JDict members ∈ items
            ∧ dict_get (lit "filename") members = Some (JStr filename)
            ∧ key = os_path_join images_path (strip filename)).
    { intros (members & filename & ?). by exists members, filename. }
    revert Hkey.
    destruct (for_enumerate _ _ _ _) as [o s1] eqn:Hloop.
    assert (∀ k, k ∈ dom (caption_mapping s1) →
              ∃ members filename,
                JDict members ∈ items
                ∧ dict_get (lit "filename") members = Some (JStr filename)
                ∧ k = os_path_join images_path (strip filename)) as Hinv.
    { revert Hloop.
      apply (for_enumerate_inv_elem
               (λ s, ∀ k, k ∈ dom (caption_mapping s) →
                  ∃ members filename,
                    JDict members ∈ items
                    ∧ dict_get (lit "filename") members = Some (JStr filename)
                    ∧ k = os_path_join images_path (strip filename))).
      - intros i item s o0 s' Hin HP
          [->|(ms & f & raw & -> & Hf & _ & _ & _ & ->)]%json_item_effect;
          [done|].
        intros k [Hk|Hk]%dom_insert%elem_of_union.
        + apply elem_of_singleton in Hk. subst k. by exists ms, f.
        + by apply HP.
      - intros k ?%elem_of_dom%is_Some_None. done. }
    destruct o as [[]|e]; cbn [snd caption_mapping]; apply Hinv.
Qed.

End JsonKeys.


(** ** The skip rule of the JSON parser *)

Section JsonSkip.
Variable repr : json → str.
Variable fs : filesystem.

(** The guard of the loop, in terms of the shape of the item. *)
Lemma malformed_item_spec (item : json) :
  malformed_item item = true
  ↔ ¬ record_shaped item
    ∨ ¬ has_field (lit "filename") item
    ∨ ¬ has_field (lit "caption") item.
Proof.
  unfold malformed_item, record_shaped, has_field.
  destruct item as [| | | | | |members];
    try (cbn [isinstance_dict negb orb]; split; [intros _; left; by intros [? ?]|done]).
  cbn [isinstance_dict key_in negb orb].
  rewrite orb_true_iff, !negb_true_iff, !bool_decide_eq_false.
  split.
  - intros [H|H]; [right; left|right; right];
      intros (ms & v & [= <-] & Hv); apply H; by exists v.
  - intros [H|[H|H]].
    + destruct H. by exists members.
    + left. intros [v Hv]. apply H. by exists members, v.
    + right. intros [v Hv]. apply H. by exists members, v.
Qed.

Lemma json_item_malformed file_path images_path validate idx item s :
  malformed_item item = true →
  json_item repr fs file_path images_path validate idx item s =
  (Normal (),
   {| caption_mapping := caption_mapping s;
      processed_rows_count := processed_rows_count s;
      stdout := stdout s ++ json_progress idx
                ++ [MalformedJsonItem file_path item] |}).
Proof.
  intros H. unfold json_item, json_progress. rewrite H. run.
  destruct (_ =? _)%nat; cbn [caption_mapping processed_rows_count stdout].
  - by rewrite <- app_assoc.
  - by destruct s.
Qed.

Lemma json_item_well_formed file_path images_path validate idx item s :
  malformed_item item = false →
  processed_silently repr fs file_path images_path validate idx item s.
Proof.
  intros H. unfold processed_silently, json_item, json_progress. rewrite H.
  run. destruct (_ =? _)%nat; repeat (case_match; run); simplify_eq;
    cbn [snd stdout]; by rewrite ?app_nil_r.
Qed.

(** C6, as the code has it.  The item loop skips, with the warning, exactly
    the items that are not objects or lack the [filename] member or lack the
    [caption] member; an object that has both members is taken past the guard
    without a warning. *)
Theorem json_skip_rule :
  ∀ file_path images_path validate idx item s,
    (skipped_with_diagnostic repr fs file_path images_path validate idx item s
     ↔ ¬ record_shaped item
       ∨ ¬ has_field (lit "filename") item
       ∨ ¬ has_field (lit "caption") item)
    ∧ (record_shaped item
       ∧ has_field (lit "filename") item
       ∧ has_field (lit "caption") item
       → processed_silently repr fs file_path images_path validate idx item s).
Proof.
  intros file_path images_path validate idx item s.
  rewrite <- malformed_item_spec. split.
  - split.
    + destruct (malformed_item item) eqn:Hm; [done|].
      unfold skipped_with_diagnostic.
      pose proof (json_item_well_formed file_path images_path validate idx
                    item s Hm) as Hp.
      unfold processed_silently in Hp.
      destruct (json_item _ _ _ _ _ _ _ _) as [o s']. cbn [snd] in Hp.
      intros (_ & _ & Hout). rewrite Hp in Hout.
      apply app_inv_head in Hout.
      apply (f_equal length) in Hout. rewrite length_app in Hout.
      simpl in Hout. lia.
    + intros Hm. unfold skipped_with_diagnostic.
      by rewrite json_item_malformed.
  - intros (Hr & Hf & Hc). apply json_item_well_formed.
    destruct (malformed_item item) eqn:Hm; [|done].
    apply malformed_item_spec in Hm as [?|[?|?]]; done.
Qed.

End JsonSkip.

(** ** Image names *)

Section ImageNames.
Variable int : str → option Z.
Variable fs : filesystem.

Lemma contains_hash_app (a b : str) : contains (lit "#") (a ++ lit "#" ++ b) = true.
Proof.
  rewrite lit_hash. apply contains_char, elem_of_app. right. left.
Qed.

Lemma split_head_hash (a b : str) :
  contains (lit "#") a = false →
  split_head (lit "#") (a ++ lit "#" ++ b) = a.
Proof.
  rewrite lit_hash. intros Ha. apply split_head_char.
  intros Hin%contains_char. congruence.
Qed.

(** C9, as the code has it.  For a raw name [a#b], where [a] has no [#], the
    CSV parser builds the image path from [a]; the spreadsheet parser builds
    it from [a] with every [*MG*] replaced by [IMG_], which is [a] itself
    when [a] has no [*MG*].  In both parsers a row that is kept is stored
    under the path built from that name. *)
Theorem hash_suffix_normalization :
  ∀ a b,
    contains (lit "#") a = false →
    csv_image_name (a ++ lit "#" ++ b) = a
    ∧ xlsx_image_name (a ++ lit "#" ++ b) = replace (lit "*MG*") (lit "IMG_") a
    ∧ (contains (lit "*MG*") a = false → xlsx_image_name (a ++ lit "#" ++ b) = a)
    ∧ (∀ images_path validate total idx row caption s,
          row_get (lit "caption_id") row = Some (a ++ lit "#" ++ b) →
          row_get (lit "bengali_caption") row = Some caption → caption ≠ [] →
          accepted fs validate (image_path images_path a) →
          caption_mapping
            (csv_row_step fs images_path validate total idx row s).2 =
          <[image_path images_path a :=
              default [] (caption_mapping s !! image_path images_path a)
              ++ [csv_formatted_caption caption]]> (caption_mapping s))
    ∧ (∀ images_path validate shared total idx row cell0 cell1 cells caption s,
          filter (λ el, endswith (lit "c") (tag el) = true) (children row)
            = cell0 :: cell1 :: cells →
          get_cell_value int shared cell0 = Some (a ++ lit "#" ++ b) →
          get_cell_value int shared cell1 = Some caption → caption ≠ [] →
          accepted fs validate
            (image_path images_path (replace (lit "*MG*") (lit "IMG_") a)) →
          caption_mapping
            (xlsx_row int fs images_path validate shared total idx row s).2 =
          <[image_path images_path (replace (lit "*MG*") (lit "IMG_") a) :=
              default []
                (caption_mapping s
                   !! image_path images_path
                        (replace (lit "*MG*") (lit "IMG_") a))
              ++ [xlsx_formatted_caption caption]]> (caption_mapping s)).
Proof.
  intros a b Ha.
  assert (csv_image_name (a ++ lit "#" ++ b) = a) as Hcsv.
  { unfold csv_image_name. by rewrite contains_hash_app, split_head_hash. }
  assert (xlsx_image_name (a ++ lit "#" ++ b)
          = replace (lit "*MG*") (lit "IMG_") a) as Hxlsx.
  { unfold xlsx_image_name. by rewrite contains_hash_app, split_head_hash. }
  assert (a ++ lit "#" ++ b ≠ []) as Hne.
  { rewrite lit_hash. by destruct a. }
  split_and!; [done|done| |..].
  - intros Hmg. by rewrite Hxlsx, replace_absent.
  - intros images_path validate total idx row caption s Hname Hcap Hc Hacc.
    rewrite <- Hcsv in Hacc.
    destruct (csv_row_kept fs images_path validate total idx row _ caption s
                Hname Hne Hcap Hc Hacc) as [_ Hkept].
    by rewrite Hcsv in Hkept.
  - intros images_path validate shared total idx row cell0 cell1 cells caption s
      Hcells Hname Hcap Hc Hacc.
    rewrite <- Hxlsx in Hacc.
    destruct (xlsx_row_kept int fs images_path validate shared total idx row
                cell0 cell1 cells _ caption s Hcells Hname Hne Hcap Hc Hacc)
      as [_ Hkept].
    by rewrite Hxlsx in Hkept.
Qed.

End ImageNames.

(** ** Shared strings *)

Section SharedStrings.
Variable int : str → option Z.
Variable fs : filesystem.

(** C5. A cell marked as shared string, whose value element holds the text
    [txt], resolves to the entry of the shared-string table at the index
    [int(txt)]; to nothing when the index is out of range or [txt] is not a
    number; and a row whose first cell resolves to nothing leaves the mapping
    as it is. *)
Theorem shared_string_resolution :
  (∀ shared cell v txt,
      attrib_get (lit "t") (attrib cell) = Some (lit "s") →
      head (filter (λ v, endswith (lit "v") (tag v) = true) (children cell))
        = Some v →
      text v = Some txt → txt ≠ [] →
      (∀ idx, int txt = Some idx →
              (0 ≤ idx < Z.of_nat (length shared))%Z →
              get_cell_value int shared cell = shared !! Z.to_nat idx
              ∧ is_Some (shared !! Z.to_nat idx))
      ∧ (∀ idx, int txt = Some idx →
                ¬ (0 ≤ idx < Z.of_nat (length shared))%Z →
                get_cell_value int shared cell = None)
      ∧ (int txt = None → get_cell_value int shared cell = None))
  ∧ (∀ images_path validate shared total idx row cell0 cells s,
        filter (λ el, endswith (lit "c") (tag el) = true) (children row)
          = cell0 :: cells →
        get_cell_value int shared cell0 = None →
        (xlsx_row int fs images_path validate shared total idx row s).1
          = Normal ()
        ∧ caption_mapping
            (xlsx_row int fs images_path validate shared total idx row s).2
          = caption_mapping s).
Proof.
  split.
  - intros shared cell v txt Ht Hv Htxt Hne.
    unfold get_cell_value. rewrite Ht, Hv, Htxt.
    rewrite truthy_Some by done.
    rewrite bool_decide_eq_true_2 by done. cbn [from_option id].
    split_and!.
    + intros idx -> Hidx. rewrite bool_decide_eq_true_2 by done.
      split; [done|]. apply lookup_lt_is_Some. lia.
    + intros idx -> Hidx. by rewrite bool_decide_eq_false_2.
    + by intros ->.
  - intros images_path validate shared total idx row cell0 cells s Hcells Hnone.
    unfold xlsx_row. rewrite Hcells, Hnone. cbn [truthy]. run.
    destruct (_ || _); destruct cells; done.
Qed.

End SharedStrings.

(** ** Validation *)

Section Validation.
Variable int : str → option Z.
Variable repr : json → str.
Variable fs : filesystem.

(** Inclusions between key sets that arise when one or both mappings get a
    key. *)
Ltac keys :=
  rewrite ?dom_insert_L;
  first [ assumption
        | apply union_mono_l; assumption
        | etrans; [eassumption | apply union_subseteq_r] ].

Lemma xlsx_row_validation images_path shared total i row s1 s2 o1 o2 s1' s2' :
  keys_within s1 s2 →
  xlsx_row int fs images_path true shared total i row s1 = (o1, s1') →
  xlsx_row int fs images_path false shared total i row s2 = (o2, s2') →
  keys_within s1' s2' ∧ (o1 = Normal () → o2 = Normal ()).
Proof.
  unfold keys_within, xlsx_row. intros HR H1 H2.
  run_cases; (split; [clear -HR; keys | done]).
Qed.

Lemma xlsx_row_grows images_path validate shared total i row s1 s2 o2 s2' :
  keys_within s1 s2 →
  xlsx_row int fs images_path validate shared total i row s2 = (o2, s2') →
  keys_within s1 s2'.
Proof.
  unfold keys_within.
  intros HR [->|(k & c & _ & ->)]%xlsx_row_effect; [done|].
  keys.
Qed.

Lemma csv_row_validation images_path total i row s1 s2 o1 o2 s1' s2' :
  keys_within s1 s2 →
  csv_row_step fs images_path true total i row s1 = (o1, s1') →
  csv_row_step fs images_path false total i row s2 = (o2, s2') →
  keys_within s1' s2' ∧ (o1 = Normal () → o2 = Normal ()).
Proof.
  unfold keys_within, csv_row_step. intros HR H1 H2.
  run_cases; (split; [clear -HR; keys | done]).
Qed.

Lemma csv_row_grows images_path validate total i row s1 s2 o2 s2' :
  keys_within s1 s2 →
  csv_row_step fs images_path validate total i row s2 = (o2, s2') →
  keys_within s1 s2'.
Proof.
  unfold keys_within.
  intros HR [->|(k & c & _ & ->)]%csv_row_effect; [done|].
  keys.
Qed.

Lemma json_item_validation file_path images_path i item s1 s2 o1 o2 s1' s2' :
  keys_within s1 s2 →
  json_item repr fs file_path images_path true i item s1 = (o1, s1') →
  json_item repr fs file_path images_path false i item s2 = (o2, s2') →
  keys_within s1' s2' ∧ (o1 = Normal () → o2 = Normal ()).
Proof.
  unfold keys_within, json_item. intros HR H1 H2.
  run_cases; (split; [clear -HR; keys | done]).
Qed.

Lemma json_item_grows file_path images_path validate i item s1 s2 o2 s2' :
  keys_within s1 s2 →
  json_item repr fs file_path images_path validate i item s2 = (o2, s2') →
  keys_within s1 s2'.
Proof.
  unfold keys_within.
  intros HR [->|(ms & f & raw & _ & _ & _ & _ & _ & ->)]%json_item_effect;
    [done|].
  keys.
Qed.

Lemma xlsx_try_validation has_header xlsx_file images_path s1 s2 o1 o2 s1' s2' :
  keys_within s1 s2 →
  xlsx_try int fs has_header xlsx_file images_path true s1 = (o1, s1') →
  xlsx_try int fs has_header xlsx_file images_path false s2 = (o2, s2') →
  keys_within s1' s2'.
Proof.
  unfold xlsx_try. intros HR H1 H2. run.
  repeat (case_match; run); simplify_eq; try done.
  all: eapply (for_enumerate_rel keys_within _ _ _ _ _ _ _ _ _ _ _ _ _ H1 H2).
  Unshelve.
  all: first [exact HR | intros; by eapply xlsx_row_validation
             | intros; by eapply xlsx_row_grows].
Qed.

Lemma csv_try_validation csv_file_path images_path s1 s2 o1 o2 s1' s2' :
  keys_within s1 s2 →
  csv_try fs csv_file_path images_path true s1 = (o1, s1') →
  csv_try fs csv_file_path images_path false s2 = (o2, s2') →
  keys_within s1' s2'.
Proof.
  unfold csv_try. intros HR H1 H2. run.
  destruct (read_csv fs csv_file_path) as [rows|e]; [|by simplify_eq].
  destruct (for_enumerate 1 rows (csv_row_step fs images_path true _) _)
    as [o1' t1] eqn:Hloop1.
  destruct (for_enumerate 1 rows (csv_row_step fs images_path false _) _)
    as [o2' t2] eqn:Hloop2.
  assert (keys_within t1 t2) as HR'.
  { eapply (for_enumerate_rel keys_within _ _ _ _ _ _ _ _ _ _ _ _ _
              Hloop1 Hloop2).
    Unshelve.
    all: first [exact HR | intros; by eapply csv_row_validation
               | intros; by eapply csv_row_grows]. }
  destruct o1', o2'; by simplify_eq.
Qed.

Lemma json_try_validation file_path images_path s1 s2 o1 o2 s1' s2' :
  keys_within s1 s2 →
  json_try repr fs file_path images_path true s1 = (o1, s1') →
  json_try repr fs file_path images_path false s2 = (o2, s2') →
  keys_within s1' s2'.
Proof.
  unfold json_try. intros HR H1 H2. run.
  destruct (json_load fs file_path) as [caption_data|e]; [|by simplify_eq].
  destruct caption_data as [| | | | |items|]; try by simplify_eq.
  destruct (for_enumerate 0 items (json_item repr fs _ _ true) _)
    as [o1' t1] eqn:Hloop1.
  destruct (for_enumerate 0 items (json_item repr fs _ _ false) _)
    as [o2' t2] eqn:Hloop2.
  assert (keys_within t1 t2) as HR'.
  { eapply (for_enumerate_rel keys_within _ _ _ _ _ _ _ _ _ _ _ _ _
              Hloop1 Hloop2).
    Unshelve.
    all: first [exact HR | intros; by eapply json_item_validation
               | intros; by eapply json_item_grows]. }
  destruct o1', o2'; by simplify_eq.
Qed.

(** C4. For each of the three parsers, on the same file and image root, the
    keys of the mapping returned with validation on are keys of the mapping
    returned with validation off. *)
Theorem validation_monotone :
  (∀ has_header xlsx_file images_path,
      dom (xlsx_extract int fs has_header xlsx_file images_path true).1
      ⊆ dom (xlsx_extract int fs has_header xlsx_file images_path false).1)
  ∧ (∀ csv_file_path images_path,
        dom (csv_extract fs csv_file_path images_path true).1
        ⊆ dom (csv_extract fs csv_file_path images_path false).1)
  ∧ (∀ file_path images_path,
        dom (json_extract repr fs file_path images_path true).1
        ⊆ dom (json_extract repr fs file_path images_path false).1).
Proof.
  split_and!.
  - intros has_header xlsx_file images_path. rewrite !xlsx_extract_mapping.
    destruct (xlsx_try _ _ _ _ _ true _) as [o1 s1] eqn:H1.
    destruct (xlsx_try _ _ _ _ _ false _) as [o2 s2] eqn:H2.
    by apply (xlsx_try_validation has_header xlsx_file images_path
                entry entry o1 o2 s1 s2).
  - intros csv_file_path images_path. rewrite !csv_extract_mapping.
    destruct (csv_try _ _ _ true _) as [o1 s1] eqn:H1.
    destruct (csv_try _ _ _ false _) as [o2 s2] eqn:H2.
    by apply (csv_try_validation csv_file_path images_path
                entry entry o1 o2 s1 s2).
  - intros file_path images_path. rewrite !json_extract_mapping.
    destruct (json_try _ _ _ _ true _) as [o1 s1] eqn:H1.
    destruct (json_try _ _ _ _ false _) as [o2 s2] eqn:H2.
    by apply (json_try_validation file_path images_path
                (print (ParsingJson file_path) entry).2
                (print (ParsingJson file_path) entry).2 o1 o2 s1 s2).
Qed.

End Validation.

(** ** Error containment *)

Section Containment.
Variable int : str → option Z.
Variable repr : json → str.
Variable fs : filesystem.

(** A loop whose first iterations complete and whose next iteration raises
    stops there. *)
Lemma for_enumerate_stops {X} (body : nat → X → M unit) start done x rest
    s s1 e s' :
  for_enumerate start done body s = (Normal (), s1) →
  body (start + length done) x s1 = (Raised e, s') →
  for_enumerate start (done ++ x :: rest) body s = (Raised e, s').
Proof.
  intros Hdone Hx. by rewrite for_enumerate_app, Hdone, for_enumerate_cons, Hx.
Qed.

(** The [try] body of the spreadsheet parser on a workbook that loads. *)
Lemma xlsx_try_loaded has_header xlsx_file images_path validate xlsx shared
    tree s :
  ZipFile fs xlsx_file = Normal xlsx →
  load_shared_strings xlsx = Normal shared →
  lit "xl/worksheets/sheet1.xml" ∈ namelist xlsx →
  parse_member xlsx (lit "xl/worksheets/sheet1.xml") = Normal tree →
  xlsx_try int fs has_header xlsx_file images_path validate s =
  for_enumerate 1 (data_rows has_header tree)
    (xlsx_row int fs images_path validate shared
       (length (data_rows has_header tree)))
    (print (ParsingXlsx xlsx_file (length (data_rows has_header tree))) s).2.
Proof.
  unfold xlsx_try, load_shared_strings, data_rows.
  intros Hzip Hshared Hin Htree. run. cbv zeta. rewrite Hzip, Htree.
  rewrite (bool_decide_eq_false_2 (_ ∉ _)) by (intros Hn; by apply Hn).
  destruct (bool_decide (lit "xl/sharedStrings.xml" ∈ namelist xlsx)).
  - destruct (parse_member xlsx (lit "xl/sharedStrings.xml"));
      by simplify_eq.
  - by simplify_eq.
Qed.

(** The [try] body of the spreadsheet parser on a file that does not
    load. *)
Lemma xlsx_try_unloaded has_header xlsx_file images_path validate s :
  (∃ e, ZipFile fs xlsx_file = Raised e)
  ∨ (∃ xlsx, ZipFile fs xlsx_file = Normal xlsx
       ∧ ((∃ e, load_shared_strings xlsx = Raised e)
          ∨ lit "xl/worksheets/sheet1.xml" ∉ namelist xlsx
          ∨ ∃ e, parse_member xlsx (lit "xl/worksheets/sheet1.xml") = Raised e)) →
  caption_mapping
    (xlsx_try int fs has_header xlsx_file images_path validate s).2
  = caption_mapping s.
Proof.
  unfold xlsx_try, load_shared_strings. run. cbv zeta.
  intros [[e ->]|(xlsx & -> & H)]; [done|].
  destruct (bool_decide (lit "xl/sharedStrings.xml" ∈ namelist xlsx));
    [destruct (parse_member xlsx (lit "xl/sharedStrings.xml")) as [t|e0]|];
    try done.
  all: destruct H as [[e H]|[H|[e H]]]; try done.
  all: try (by rewrite (bool_decide_eq_true_2 _ H)).
  all: rewrite H; by destruct (bool_decide _).
Qed.

(** C3. The handlers of [extract] catch every exception, so [extract]
    returns the mapping the [try] body has built when it stops.  A file that
    cannot be opened or decoded, a workbook without sheet, a JSON root that
    is not a list give the empty mapping; a loop that raises has completed
    the iterations before the one that raised, and an exception in a row or
    record gives the mapping built by the rows or records before it. *)
Theorem extract_contains_errors :
  (∀ (X : Type) (body : nat → X → M unit) start xs s e s',
      for_enumerate start xs body s = (Raised e, s') →
      ∃ done x rest s1,
        xs = done ++ x :: rest
        ∧ for_enumerate start done body s = (Normal (), s1)
        ∧ body (start + length done) x s1 = (Raised e, s'))
  ∧ (∀ has_header xlsx_file images_path validate,
        (xlsx_extract int fs has_header xlsx_file images_path validate).1 =
        caption_mapping
          (xlsx_try int fs has_header xlsx_file images_path validate entry).2)
  ∧ (∀ has_header xlsx_file images_path validate,
        (∃ e, ZipFile fs xlsx_file = Raised e)
        ∨ (∃ xlsx, ZipFile fs xlsx_file = Normal xlsx
             ∧ ((∃ e, load_shared_strings xlsx = Raised e)
                ∨ lit "xl/worksheets/sheet1.xml" ∉ namelist xlsx
                ∨ ∃ e, parse_member xlsx (lit "xl/worksheets/sheet1.xml")
                       = Raised e)) →
        (xlsx_extract int fs has_header xlsx_file images_path validate).1 = ∅)
  ∧ (∀ has_header xlsx_file images_path validate xlsx shared tree
       done row rest s1 e s',
        ZipFile fs xlsx_file = Normal xlsx →
        load_shared_strings xlsx = Normal shared →
        lit "xl/worksheets/sheet1.xml" ∈ namelist xlsx →
        parse_member xlsx (lit "xl/worksheets/sheet1.xml") = Normal tree →
        data_rows has_header tree = done ++ row :: rest →
        for_enumerate 1 done
          (xlsx_row int fs images_path validate shared
             (length (data_rows has_header tree)))
          (started [ParsingXlsx xlsx_file (length (data_rows has_header tree))])
        = (Normal (), s1) →
        xlsx_row int fs images_path validate shared
          (length (data_rows has_header tree)) (1 + length done) row s1
        = (Raised e, s') →
        (xlsx_extract int fs has_header xlsx_file images_path validate).1
        = caption_mapping s1)
  ∧ (∀ csv_file_path images_path validate,
        (csv_extract fs csv_file_path images_path validate).1 =
        caption_mapping
          (csv_try fs csv_file_path images_path validate entry).2)
  ∧ (∀ csv_file_path images_path validate e,
        read_csv fs csv_file_path = Raised e →
        (csv_extract fs csv_file_path images_path validate).1 = ∅)
  ∧ (∀ csv_file_path images_path validate done row rest s1 e s',
        read_csv fs csv_file_path = Normal (done ++ row :: rest) →
        for_enumerate 1 done
          (csv_row_step fs images_path validate (length (done ++ row :: rest)))
          (started [ParsingCsv csv_file_path (length (done ++ row :: rest))])
        = (Normal (), s1) →
        csv_row_step fs images_path validate (length (done ++ row :: rest))
          (1 + length done) row s1
        = (Raised e, s') →
        (csv_extract fs csv_file_path images_path validate).1
        = caption_mapping s1)
  ∧ (∀ file_path images_path validate,
        (json_extract repr fs file_path images_path validate).1 =
        caption_mapping
          (json_try repr fs file_path images_path validate
             (started [ParsingJson file_path])).2)
  ∧ (∀ file_path images_path validate,
        (∃ e, json_load fs file_path = Raised e)
        ∨ (∃ v, json_load fs file_path = Normal v ∧ ∀ items, v ≠ JList items) →
        (json_extract repr fs file_path images_path validate).1 = ∅)
  ∧ (∀ file_path images_path validate done item rest s1 e s',
        json_load fs file_path = Normal (JList (done ++ item :: rest)) →
        for_enumerate 0 done
          (json_item repr fs file_path images_path validate)
          (started [ParsingJson file_path])
        = (Normal (), s1) →
        json_item repr fs file_path images_path validate
          (0 + length done) item s1
        = (Raised e, s') →
        (json_extract repr fs file_path images_path validate).1
        = caption_mapping s1).
Proof.
  split_and!.
  - intros X body start xs s e s'. apply for_enumerate_raised.
  - apply xlsx_extract_mapping.
  - intros has_header xlsx_file images_path validate H.
    rewrite xlsx_extract_mapping. by rewrite xlsx_try_unloaded.
  - intros has_header xlsx_file images_path validate xlsx shared tree
      done row rest s1 e s' Hzip Hshared Hin Htree Hrows Hdone Hrow.
    rewrite xlsx_extract_mapping.
    rewrite (xlsx_try_loaded _ _ _ _ _ _ _ _ Hzip Hshared Hin Htree).
    rewrite Hrows at 1.
    erewrite for_enumerate_stops; [|exact Hdone|exact Hrow].
    by eapply xlsx_row_raised.
  - apply csv_extract_mapping.
  - intros csv_file_path images_path validate e He.
    rewrite csv_extract_mapping. unfold csv_try. run. by rewrite He.
  - intros csv_file_path images_path validate done row rest s1 e s'
      Hread Hdone Hrow.
    rewrite csv_extract_mapping. unfold csv_try. run. rewrite Hread.
    change {| caption_mapping := caption_mapping entry;
              processed_rows_count := processed_rows_count entry;
              stdout := stdout entry ++ [ParsingCsv csv_file_path
                                           (length (done ++ row :: rest))] |}
      with (started [ParsingCsv csv_file_path (length (done ++ row :: rest))]).
    erewrite for_enumerate_stops; [|exact Hdone|exact Hrow].
    by eapply csv_row_raised.
  - apply json_extract_mapping.
  - intros file_path images_path validate H.
    rewrite json_extract_mapping. unfold json_try. run.
    destruct H as [[e ->]|(v & -> & Hv)]; [done|].
    destruct v; try done. by destruct (Hv items).
  - intros file_path images_path validate done item rest s1 e s'
      Hload Hdone Hitem.
    rewrite json_extract_mapping. unfold json_try. run. rewrite Hload.
    change (print (ParsingJson file_path) entry).2
      with (started [ParsingJson file_path]).
    erewrite for_enumerate_stops; [|exact Hdone|exact Hitem].
    by eapply json_item_raised.
Qed.

End Containment.

(** ** Caption formats *)

Section Formats.
Variable int : str → option Z.
Variable repr : json → str.
Variable fs : filesystem.

(** What a row of the spreadsheet stores, when it stores: the caption of
    its second cell, under the path made of its first cell. *)
Lemma xlsx_row_stores images_path validate shared total idx row s o s' :
  xlsx_row int fs images_path validate shared total idx row s = (o, s') →
  caption_mapping s' = caption_mapping s
  ∨ ∃ cell0 cell1 cells name caption,
      filter (λ el, endswith (lit "c") (tag el) = true) (children row)
        = cell0 :: cell1 :: cells
      ∧ get_cell_value int shared cell0 = Some name
      ∧ get_cell_value int shared cell1 = Some caption
      ∧ caption_mapping s' =
        <[image_path images_path (xlsx_image_name name) :=
            default [] (caption_mapping s
                          !! image_path images_path (xlsx_image_name name))
            ++ [xlsx_formatted_caption caption]]> (caption_mapping s).
Proof.
  unfold xlsx_row. intros H.
  destruct (filter _ (children row)) as [|cell0 [|cell1 cells]] eqn:Hcells;
    [run_cases; by left..|].
  destruct (get_cell_value int shared cell0) as [name|] eqn:Hname;
    [|run_cases; by left].
  destruct (get_cell_value int shared cell1) as [caption|] eqn:Hcap;
    [|run_cases; by left].
  cbn [from_option id] in H.
  run_cases; try (by left); right; by eexists _, _, _, _, _.
Qed.

(** The same for a row of the CSV file. *)
Lemma csv_row_stores images_path validate total idx row s o s' :
  csv_row_step fs images_path validate total idx row s = (o, s') →
  caption_mapping s' = caption_mapping s
  ∨ ∃ name caption,
      row_get (lit "caption_id") row = Some name
      ∧ row_get (lit "bengali_caption") row = Some caption
      ∧ caption_mapping s' =
        <[image_path images_path (csv_image_name name) :=
            default [] (caption_mapping s
                          !! image_path images_path (csv_image_name name))
            ++ [csv_formatted_caption caption]]> (caption_mapping s).
Proof.
  unfold csv_row_step. intros H.
  destruct (row_get (lit "caption_id") row) as [name|] eqn:Hname;
    [|run_cases; by left].
  destruct (row_get (lit "bengali_caption") row) as [caption|] eqn:Hcap;
    [|rewrite andb_false_r in H; run_cases; by left].
  cbn [from_option id] in H.
  run_cases; try (by left); right; by eexists _, _.
Qed.


(** C2. Each extractor stores a caption in its own wrapper around the
    caption text of the row or record, trimmed of white space.
    The spreadsheet extractor stores [<start> {trimmed} <end>]: a row that
    is kept appends that string, made of the text of its second cell, and
    every caption of the mapping [extract] returns is that string for a
    row of the sheet, stored under the path of that row.
    The CSV extractor stores [ <start> {trimmed} <end> ], with a leading
    and a trailing space, in the same two senses, for the column
    [bengali_caption].
    The JSON extractor stores [<start>{trimmed} ], without end marker: a
    record that is kept assigns the list of these strings, one for each
    caption that is not null, and every list of the mapping [extract]
    returns is that list for a record of the file.
    No string has two of the three forms. *)
Theorem caption_formats_per_extractor :
  (∀ images_path validate shared total idx row cell0 cell1 cells name caption s,
      filter (λ el, endswith (lit "c") (tag el) = true) (children row)
        = cell0 :: cell1 :: cells →
      get_cell_value int shared cell0 = Some name → name ≠ [] →
      get_cell_value int shared cell1 = Some caption → caption ≠ [] →
      accepted fs validate (image_path images_path (xlsx_image_name name)) →
      caption_mapping
        (xlsx_row int fs images_path validate shared total idx row s).2
        !! image_path images_path (xlsx_image_name name)
      = Some (default [] (caption_mapping s
                            !! image_path images_path (xlsx_image_name name))
              ++ [lit "<start> " ++ strip caption ++ lit " <end>"]))
  ∧ (∀ has_header xlsx_file images_path validate key captions c,
        (xlsx_extract int fs has_header xlsx_file images_path validate).1 !! key
          = Some captions →
        c ∈ captions →
        ∃ xlsx shared tree row cell0 cell1 cells name caption,
          ZipFile fs xlsx_file = Normal xlsx
          ∧ load_shared_strings xlsx = Normal shared
          ∧ parse_member xlsx (lit "xl/worksheets/sheet1.xml") = Normal tree
          ∧ row ∈ data_rows has_header tree
          ∧ filter (λ el, endswith (lit "c") (tag el) = true) (children row)
            = cell0 :: cell1 :: cells
          ∧ get_cell_value int shared cell0 = Some name
          ∧ get_cell_value int shared cell1 = Some caption
          ∧ key = image_path images_path (xlsx_image_name name)
          ∧ c = lit "<start> " ++ strip caption ++ lit " <end>")
  ∧ (∀ images_path validate total idx row name caption s,
        row_get (lit "caption_id") row = Some name → name ≠ [] →
        row_get (lit "bengali_caption") row = Some caption → caption ≠ [] →
        accepted fs validate (image_path images_path (csv_image_name name)) →
        caption_mapping (csv_row_step fs images_path validate total idx row s).2
          !! image_path images_path (csv_image_name name)
        = Some (default [] (caption_mapping s
                              !! image_path images_path (csv_image_name name))
                ++ [lit " <start> " ++ strip caption ++ lit " <end> "]))
  ∧ (∀ csv_file_path images_path validate key captions c,
        (csv_extract fs csv_file_path images_path validate).1 !! key
          = Some captions →
        c ∈ captions →
        ∃ rows row name caption,
          read_csv fs csv_file_path = Normal rows
          ∧ row ∈ rows
          ∧ row_get (lit "caption_id") row = Some name
          ∧ row_get (lit "bengali_caption") row = Some caption
          ∧ key = image_path images_path (csv_image_name name)
          ∧ c = lit " <start> " ++ strip caption ++ lit " <end> ")
  ∧ (∀ file_path images_path validate idx members filename raw_captions s,
        dict_get (lit "filename") members = Some (JStr filename) →
        dict_get (lit "caption") members = Some raw_captions →
        filter (λ caption, is_not_None caption = true)
               (as_caption_list raw_captions) ≠ [] →
        accepted fs validate (os_path_join images_path (strip filename)) →
        caption_mapping
          (json_item repr fs file_path images_path validate idx
             (JDict members) s).2
          !! os_path_join images_path (strip filename)
        = Some ((λ caption, lit "<start>" ++ strip (py_str repr caption) ++ lit " ")
                  <$> filter (λ caption, is_not_None caption = true)
                             (as_caption_list raw_captions)))
  ∧ (∀ file_path images_path validate key captions,
        (json_extract repr fs file_path images_path validate).1 !! key
          = Some captions →
        ∃ items members filename raw_captions,
          json_load fs file_path = Normal (JList items)
          ∧ JDict members ∈ items
          ∧ dict_get (lit "filename") members = Some (JStr filename)
          ∧ dict_get (lit "caption") members = Some raw_captions
          ∧ key = os_path_join images_path (strip filename)
          ∧ captions
            = (λ caption, lit "<start>" ++ strip (py_str repr caption) ++ lit " ")
                <$> filter (λ caption, is_not_None caption = true)
                           (as_caption_list raw_captions))
  ∧ (∀ a b c,
        lit "<start> " ++ strip a ++ lit " <end>"
          ≠ lit " <start> " ++ strip b ++ lit " <end> "
        ∧ lit "<start> " ++ strip a ++ lit " <end>"
          ≠ lit "<start>" ++ strip (py_str repr c) ++ lit " "
        ∧ lit " <start> " ++ strip b ++ lit " <end> "
          ≠ lit "<start>" ++ strip (py_str repr c) ++ lit " ").
Proof.
  split_and!.
  - intros images_path validate shared total idx row cell0 cell1 cells name
      caption s Hcells Hname Hn Hcap Hc Hacc.
    destruct (xlsx_row_kept int fs images_path validate shared total idx row
                cell0 cell1 cells name caption s Hcells Hname Hn Hcap Hc Hacc)
      as [_ ->].
    by rewrite lookup_insert_eq.
  - intros has_header xlsx_file images_path validate key captions c.
    rewrite xlsx_extract_mapping.
    assert (∀ t : frame, caption_mapping t = ∅ →
              caption_mapping t !! key = Some captions → c ∈ captions →
              ∃ xlsx shared tree row cell0 cell1 cells name caption,
                ZipFile fs xlsx_file = Normal xlsx
                ∧ load_shared_strings xlsx = Normal shared
                ∧ parse_member xlsx (lit "xl/worksheets/sheet1.xml") = Normal tree
                ∧ row ∈ data_rows has_header tree
                ∧ filter (λ el, endswith (lit "c") (tag el) = true) (children row)
                  = cell0 :: cell1 :: cells
                ∧ get_cell_value int shared cell0 = Some name
                ∧ get_cell_value int shared cell1 = Some caption
                ∧ key = image_path images_path (xlsx_image_name name)
                ∧ c = lit "<start> " ++ strip caption ++ lit " <end>") as Hnone.
    { intros t ->. by rewrite lookup_empty. }
    destruct (ZipFile fs xlsx_file) as [xlsx|e] eqn:Hzip;
      [|apply Hnone; rewrite xlsx_try_unloaded; [done|left; by exists e]].
    destruct (load_shared_strings xlsx) as [shared|e] eqn:Hshared;
      [|apply Hnone; rewrite xlsx_try_unloaded; [done|];
        right; exists xlsx; split; [done|left; by exists e]].
    destruct (decide (lit "xl/worksheets/sheet1.xml" ∈ namelist xlsx))
      as [Hin|Hin];
      [|apply Hnone; rewrite xlsx_try_unloaded; [done|];
        right; exists xlsx; split; [done|right; by left]].
    destruct (parse_member xlsx (lit "xl/worksheets/sheet1.xml"))
      as [tree|e] eqn:Htree;
      [|apply Hnone; rewrite xlsx_try_unloaded; [done|];
        right; exists xlsx; split; [done|right; right; by exists e]].
    rewrite (xlsx_try_loaded _ _ _ _ _ _ _ _ _ _ Hzip Hshared Hin Htree).
    intros Hkey Hc. exists xlsx, shared, tree.
    cut (∃ row cell0 cell1 cells name caption,
            row ∈ data_rows has_header tree
            ∧ filter (λ el, endswith (lit "c") (tag el) = true) (children row)
              = cell0 :: cell1 :: cells
            ∧ get_cell_value int shared cell0 = Some name
            ∧ get_cell_value int shared cell1 = Some caption
            ∧ key = image_path images_path (xlsx_image_name name)
            ∧ c = lit "<start> " ++ strip caption ++ lit " <end>").
    { intros (row & cell0 & cell1 & cells & name & caption & ?).
      exists row, cell0, cell1, cells, name, caption.
      destruct_and!; by split_and!. }
    clear Hnone. revert key captions c Hkey Hc.
    match goal with
    | |- context [for_enumerate ?st ?xs ?b ?t] =>
        destruct (for_enumerate st xs b t) as [o s1] eqn:Hloop
    end.
    cbn [snd]. revert Hloop.
    apply (for_enumerate_inv_elem
             (λ s, ∀ key captions c,
                caption_mapping s !! key = Some captions → c ∈ captions →
                ∃ row cell0 cell1 cells name caption,
                  row ∈ data_rows has_header tree
                  ∧ filter (λ el, endswith (lit "c") (tag el) = true)
                           (children row) = cell0 :: cell1 :: cells
                  ∧ get_cell_value int shared cell0 = Some name
                  ∧ get_cell_value int shared cell1 = Some caption
                  ∧ key = image_path images_path (xlsx_image_name name)
                  ∧ c = lit "<start> " ++ strip caption ++ lit " <end>")).
    + intros i row s o0 s' Hrow HP
        [->|(cell0 & cell1 & cells & name & caption & Hcells & Hname & Hcap & ->)]
          %xlsx_row_stores; [done|].
      intros key captions c. rewrite lookup_insert.
      case_decide as Hk; [|by apply HP].
      intros [= <-] [Hin'|Hin'%list_elem_of_singleton]%elem_of_app.
      * destruct (caption_mapping s !! _) as [old|] eqn:Hold;
          [|by apply elem_of_nil in Hin'].
        subst key. by eapply HP.
      * subst c key. by exists row, cell0, cell1, cells, name, caption.
    + intros key captions c. cbn. by rewrite lookup_empty.
  - intros images_path validate total idx row name caption s
      Hname Hn Hcap Hc Hacc.
    destruct (csv_row_kept fs images_path validate total idx row name caption s
                Hname Hn Hcap Hc Hacc) as [_ ->].
    by rewrite lookup_insert_eq.
  - intros csv_file_path images_path validate key captions c.
    rewrite csv_extract_mapping. unfold csv_try. run.
    cbn [snd caption_mapping entry].
    destruct (read_csv fs csv_file_path) as [rows|e];
      [|cbn [snd caption_mapping entry]; by rewrite lookup_empty].
    intros Hkey Hc. exists rows.
    revert key captions c Hkey Hc.
    match goal with
    | |- context [for_enumerate ?st ?xs ?b ?t] =>
        destruct (for_enumerate st xs b t) as [o s1] eqn:Hloop
    end.
    assert (∀ key captions c,
              caption_mapping s1 !! key = Some captions → c ∈ captions →
              ∃ row name caption,
                row ∈ rows
                ∧ row_get (lit "caption_id") row = Some name
                ∧ row_get (lit "bengali_caption") row = Some caption
                ∧ key = image_path images_path (csv_image_name name)
                ∧ c = lit " <start> " ++ strip caption ++ lit " <end> ") as Hinv.
    { revert Hloop.
      apply (for_enumerate_inv_elem
               (λ s, ∀ key captions c,
                  caption_mapping s !! key = Some captions → c ∈ captions →
                  ∃ row name caption,
                    row ∈ rows
                    ∧ row_get (lit "caption_id") row = Some name
                    ∧ row_get (lit "bengali_caption") row = Some caption
                    ∧ key = image_path images_path (csv_image_name name)
                    ∧ c = lit " <start> " ++ strip caption ++ lit " <end> ")).
      - intros i row s o0 s' Hrow HP
          [->|(name & caption & Hname & Hcap & ->)]%csv_row_stores; [done|].
        intros key captions c. rewrite lookup_insert.
        case_decide as Hk; [|by apply HP].
        intros [= <-] [Hin'|Hin'%list_elem_of_singleton]%elem_of_app.
        + destruct (caption_mapping s !! _) as [old|] eqn:Hold;
            [|by apply elem_of_nil in Hin'].
          subst key. by eapply HP.
        + subst c key. by exists row, name, caption.
      - intros key captions c. cbn. by rewrite lookup_empty. }
    intros key captions c Hkey Hc.
    destruct (Hinv key captions c) as (row & name & caption & ?);
      [by destruct o as [[]|e]|done|].
    by exists row, name, caption.
  - intros file_path images_path validate idx members filename raw s
      Hname Hcap Hfmt Hacc.
    destruct (json_item_kept repr fs file_path images_path validate idx
                members filename raw s Hname Hcap) as [_ ->]; [|done|].
    + unfold format_captions. by intros ?%fmap_nil_inv.
    + by rewrite lookup_insert_eq.
  - intros file_path images_path validate key captions.
    rewrite json_extract_mapping. unfold json_try. run.
    cbn [snd caption_mapping entry].
    destruct (json_load fs file_path) as [caption_data|e];
      [|cbn [snd caption_mapping entry]; by rewrite lookup_empty].
    destruct caption_data as [| | | | |items|];
      try (cbn [snd caption_mapping entry]; by rewrite lookup_empty).
    intros Hkey. exists items.
    revert key captions Hkey.
    destruct (for_enumerate _ _ _ _) as [o s1] eqn:Hloop.
    assert (∀ key captions,
              caption_mapping s1 !! key = Some captions →
              ∃ members filename raw_captions,
                JDict members ∈ items
                ∧ dict_get (lit "filename") members = Some (JStr filename)
                ∧ dict_get (lit "caption") members = Some raw_captions
                ∧ key = os_path_join images_path (strip filename)
                ∧ captions = format_captions repr (as_caption_list raw_captions))
      as Hinv.
    { revert Hloop.
      apply (for_enumerate_inv_elem
               (λ s, ∀ key captions,
                  caption_mapping s !! key = Some captions →
                  ∃ members filename raw_captions,
                    JDict members ∈ items
                    ∧ dict_get (lit "filename") members = Some (JStr filename)
                    ∧ dict_get (lit "caption") members = Some raw_captions
                    ∧ key = os_path_join images_path (strip filename)
                    ∧ captions
                      = format_captions repr (as_caption_list raw_captions))).
      - intros i item s o0 s' Hin HP
          [->|(ms & f & raw & -> & Hf & Hr & _ & _ & ->)]%json_item_effect;
          [done|].
        intros key captions. rewrite lookup_insert.
        case_decide as Hk; [|by apply HP].
        intros [= <-]. subst key. by exists ms, f, raw.
      - intros key captions. cbn. by rewrite lookup_empty. }
    intros key captions Hkey.
    destruct (Hinv key captions) as (ms & f & raw & ?);
      [by destruct o as [[]|e]|].
    by exists ms, f, raw.
  - intros a b c.
    pose proof (xlsx_formatted_caption_ends a) as [Hx1 Hx2].
    pose proof (csv_formatted_caption_ends b) as [Hc1 Hc2].
    pose proof (json_formatted_caption_ends repr c) as [Hj1 Hj2].
    unfold xlsx_formatted_caption, csv_formatted_caption,
      json_formatted_caption in *.
    split_and!; intros Heq; congruence.
Qed.

End Formats.

(** ** The collector *)

Section Collector.
Variable int : str → option Z.
Variable lower : str → str.
Variable repr : json → str.
Variable fs : filesystem.

Lemma dict_update_empty_l (captions : mapping) : dict_update ∅ captions = captions.
Proof. unfold dict_update. apply (right_id_L ∅ (∪)). Qed.

Lemma dict_update_empty_r (all_captions : mapping) :
  dict_update all_captions ∅ = all_captions.
Proof. unfold dict_update. apply (left_id_L ∅ (∪)). Qed.

(** [update] takes the value of the new mapping wherever it has one. *)
Lemma dict_update_lookup (all_captions captions : mapping) (K : str) :
  dict_update all_captions captions !! K =
  match captions !! K with
  | Some v => Some v
  | None => all_captions !! K
  end.
Proof.
  unfold dict_update. rewrite lookup_union.
  destruct (captions !! K), (all_captions !! K); done.
Qed.

(** A file changes the consolidated mapping by an [update] with its
    per-file mapping. *)
Lemma collect_file_mapping base_dir validate root file acc :
  (collect_file int lower repr fs base_dir validate root file acc).1 =
  dict_update acc.1 (file_captions int lower repr fs base_dir validate root file).
Proof.
  unfold file_captions, collect_file, merge_captions.
  repeat case_match; cbn [fst snd];
    by rewrite ?dict_update_empty_l, ?dict_update_empty_r.
Qed.

(** The double loop of the collector is one loop over the files of the
    walk. *)
Lemma collect_all_caption_data_files base_dir validate :
  collect_all_caption_data int lower repr fs base_dir validate =
  collect_files int lower repr fs base_dir validate (∅, [Scanning base_dir])
    (walk_files (os_walk fs base_dir)).
Proof.
  unfold collect_all_caption_data, collect_files, walk_files.
  generalize (∅ : mapping, [Scanning base_dir]).
  induction (os_walk fs base_dir) as [|[[root dirs] files] walk IH];
    intros acc; [done|].
  cbn [foldl mbind list_bind]. rewrite foldl_app, <- IH. f_equal.
  unfold collect_dir. generalize acc.
  induction files as [|file files IHf]; intros acc'; [done|].
  cbn [foldl fmap list_fmap]. by rewrite IHf.
Qed.

Lemma collect_files_app base_dir validate acc files1 files2 :
  collect_files int lower repr fs base_dir validate acc (files1 ++ files2) =
  collect_files int lower repr fs base_dir validate
    (collect_files int lower repr fs base_dir validate acc files1) files2.
Proof. unfold collect_files. apply foldl_app. Qed.

Lemma collect_files_cons base_dir validate acc root file files :
  collect_files int lower repr fs base_dir validate acc ((root, file) :: files) =
  collect_files int lower repr fs base_dir validate
    (collect_file int lower repr fs base_dir validate root file acc) files.
Proof. reflexivity. Qed.

(** Files without the key leave the value of the key as it is. *)
Lemma collect_files_other base_dir validate acc files (K : str) :
  (∀ root file, (root, file) ∈ files →
     file_captions int lower repr fs base_dir validate root file !! K = None) →
  (collect_files int lower repr fs base_dir validate acc files).1 !! K
  = acc.1 !! K.
Proof.
  revert acc. induction files as [|[root file] files IH]; intros acc H; [done|].
  rewrite collect_files_cons, IH by (intros; apply H; by right).
  rewrite collect_file_mapping, dict_update_lookup, H; [done|left].
Qed.

(** C1. When two files of the walk have the key [K] in their per-file
    mappings, and no file after the second one has it, the consolidated
    mapping holds the value of the second file at [K]: the value of the first
    is replaced, not extended. *)
Theorem merge_law :
  ∀ base_dir validate before root1 file1 between root2 file2 after K v1 v2,
    walk_files (os_walk fs base_dir)
      = before ++ (root1, file1) :: between ++ (root2, file2) :: after →
    file_captions int lower repr fs base_dir validate root1 file1 !! K
      = Some v1 →
    file_captions int lower repr fs base_dir validate root2 file2 !! K
      = Some v2 →
    (∀ root file, (root, file) ∈ after →
       file_captions int lower repr fs base_dir validate root file !! K = None) →
    (collect_all_caption_data int lower repr fs base_dir validate).1 !! K
      = Some v2
    ∧ (v1 ≠ [] →
       (collect_all_caption_data int lower repr fs base_dir validate).1 !! K
         ≠ Some (v1 ++ v2)).
Proof.
  intros base_dir validate before root1 file1 between root2 file2 after K v1 v2
    Hwalk H1 H2 Hafter.
  assert ((collect_all_caption_data int lower repr fs base_dir validate).1 !! K
          = Some v2) as Hres.
  { rewrite collect_all_caption_data_files, Hwalk.
    replace (before ++ (root1, file1) :: between ++ (root2, file2) :: after)
      with ((before ++ (root1, file1) :: between) ++ (root2, file2) :: after)
      by (by rewrite <- app_assoc).
    rewrite collect_files_app, collect_files_cons.
    rewrite collect_files_other by done.
    by rewrite collect_file_mapping, dict_update_lookup, H2. }
  split; [done|].
  intros Hv1. rewrite Hres. intros [= Heq].
  apply Hv1. apply (f_equal length) in Heq. rewrite length_app in Heq.
  destruct v1; [done|simpl in Heq; lia].
Qed.

(** *** Routes *)

(** The extensions of the routes exclude each other. *)
Lemma endswith_csv_not_xlsx (s : str) :
  endswith (lit ".csv") s = true → endswith (lit ".xlsx") s = false.
Proof.
  unfold endswith. generalize (reverse s). intros r.
  vm_compute (reverse (lit ".csv")). vm_compute (reverse (lit ".xlsx")).
  destruct r as [|c r]; [done|]. cbn [startswith].
  destruct (N.eqb_spec 118 c) as [<-|]; done.
Qed.

Lemma endswith_json_not_xlsx (s : str) :
  endswith (lit ".json") s = true → endswith (lit ".xlsx") s = false.
Proof.
  unfold endswith. generalize (reverse s). intros r.
  vm_compute (reverse (lit ".json")). vm_compute (reverse (lit ".xlsx")).
  destruct r as [|c r]; [done|]. cbn [startswith].
  destruct (N.eqb_spec 110 c) as [<-|]; done.
Qed.

Lemma endswith_json_not_csv (s : str) :
  endswith (lit ".json") s = true → endswith (lit ".csv") s = false.
Proof.
  unfold endswith. generalize (reverse s). intros r.
  vm_compute (reverse (lit ".json")). vm_compute (reverse (lit ".csv")).
  destruct r as [|c r]; [done|]. cbn [startswith].
  destruct (N.eqb_spec 110 c) as [<-|]; done.
Qed.

(** The fixed name matches neither of the two routes tried before it. *)
Lemma fixed_name_not_captioning :
  endswith (lit ".xlsx") (lit "banglaview_dataset.xlsx")
  && contains (lit "captioning") (lit "banglaview_dataset.xlsx") = false.
Proof. vm_compute. reflexivity. Qed.

Lemma fixed_name_not_csv :
  endswith (lit ".csv") (lit "banglaview_dataset.xlsx")
  && contains (lit "ban-cap") (lit "banglaview_dataset.xlsx") = false.
Proof. vm_compute. reflexivity. Qed.

Lemma fixed_name_not_json :
  endswith (lit ".json") (lit "banglaview_dataset.xlsx") = false.
Proof. vm_compute. reflexivity. Qed.

(** The file of the fixed-name route when its image directory is missing. *)
Lemma collect_file_fixed_name_missing base_dir validate root file acc :
  lower file = lit "banglaview_dataset.xlsx" →
  os_path_exists fs
    (os_path_join3 base_dir (lit "flickr30k_images") (lit "flickr30k_images"))
    = false →
  collect_file int lower repr fs base_dir validate root file acc =
  (acc.1,
   acc.2 ++ [BanglaViewDirMissing
               (os_path_join3 base_dir (lit "flickr30k_images")
                  (lit "flickr30k_images"))]).
Proof.
  intros Hname Hdir. unfold collect_file.
  rewrite Hname, fixed_name_not_captioning, fixed_name_not_csv.
  by rewrite bool_decide_eq_true_2, Hdir.
Qed.

(** C8. A file of the fixed-name route whose image directory is missing is
    passed over: the consolidated mapping stays as it is, the only line
    printed is the warning, nothing of the result depends on a parser, and
    the collector goes on with the files after it.  With the directory in
    place the file is parsed against that directory; and on each of the three
    other routes the file is parsed in any case, against the first choice of
    image directory or against the fallback. *)
Theorem fixed_name_route_is_fatal :
  (∀ base_dir validate root file acc,
      lower file = lit "banglaview_dataset.xlsx" →
      os_path_exists fs
        (os_path_join3 base_dir (lit "flickr30k_images")
           (lit "flickr30k_images")) = false →
      collect_file int lower repr fs base_dir validate root file acc =
      (acc.1,
       acc.2 ++ [BanglaViewDirMissing
                   (os_path_join3 base_dir (lit "flickr30k_images")
                      (lit "flickr30k_images"))]))
  ∧ (∀ base_dir validate before root file after acc,
        lower file = lit "banglaview_dataset.xlsx" →
        os_path_exists fs
          (os_path_join3 base_dir (lit "flickr30k_images")
             (lit "flickr30k_images")) = false →
        collect_files int lower repr fs base_dir validate acc
          (before ++ (root, file) :: after) =
        collect_files int lower repr fs base_dir validate
          ((collect_files int lower repr fs base_dir validate acc before).1,
           (collect_files int lower repr fs base_dir validate acc before).2
           ++ [BanglaViewDirMissing
                 (os_path_join3 base_dir (lit "flickr30k_images")
                    (lit "flickr30k_images"))])
          after)
  ∧ (∀ base_dir validate root file acc,
        lower file = lit "banglaview_dataset.xlsx" →
        os_path_exists fs
          (os_path_join3 base_dir (lit "flickr30k_images")
             (lit "flickr30k_images")) = true →
        collect_file int lower repr fs base_dir validate root file acc =
        merge_captions acc
          (xlsx_extract int fs false (os_path_join root file)
             (os_path_join3 base_dir (lit "flickr30k_images")
                (lit "flickr30k_images")) validate))
  ∧ (∀ base_dir validate root file acc,
        endswith (lit ".xlsx") (lower file) = true →
        contains (lit "captioning") (lower file) = true →
        ∃ img_dir,
          (img_dir = os_path_join root (lit "image") ∨ img_dir = root)
          ∧ collect_file int lower repr fs base_dir validate root file acc =
            merge_captions acc
              (xlsx_extract int fs true (os_path_join root file) img_dir
                 validate))
  ∧ (∀ base_dir validate root file acc,
        endswith (lit ".csv") (lower file) = true →
        contains (lit "ban-cap") (lower file) = true →
        ∃ img_dir,
          (img_dir = os_path_join3 base_dir (lit "Flickr 8k Dataset")
                       (lit "Images")
           ∨ img_dir = base_dir)
          ∧ collect_file int lower repr fs base_dir validate root file acc =
            merge_captions acc
              (csv_extract fs (os_path_join root file) img_dir validate))
  ∧ (∀ base_dir validate root file acc,
        endswith (lit ".json") (lower file) = true →
        contains (lit "captions") (lower file) = true →
        ∃ img_dir,
          (img_dir = os_path_join root (lit "images")
           ∨ img_dir = os_path_join3 base_dir (lit "rxxch9vw59.2")
                         (lit "images"))
          ∧ collect_file int lower repr fs base_dir validate root file acc =
            merge_captions acc
              (json_extract repr fs (os_path_join root file) img_dir validate)).
Proof.
  split_and!.
  - apply collect_file_fixed_name_missing.
  - intros base_dir validate before root file after acc Hname Hdir.
    rewrite collect_files_app, collect_files_cons.
    by rewrite collect_file_fixed_name_missing.
  - intros base_dir validate root file acc Hname Hdir. unfold collect_file.
    rewrite Hname, fixed_name_not_captioning, fixed_name_not_csv.
    by rewrite bool_decide_eq_true_2, Hdir.
  - intros base_dir validate root file acc Hext Hname. unfold collect_file.
    rewrite Hext, Hname. cbn [andb].
    destruct (os_path_exists fs _); eexists; (split; [|reflexivity]); eauto.
  - intros base_dir validate root file acc Hext Hname. unfold collect_file.
    rewrite (endswith_csv_not_xlsx _ Hext), Hext, Hname. cbn [andb].
    destruct (os_path_exists fs _); eexists; (split; [|reflexivity]); eauto.
  - intros base_dir validate root file acc Hext Hname. unfold collect_file.
    rewrite (endswith_json_not_xlsx _ Hext), (endswith_json_not_csv _ Hext).
    rewrite Hext, Hname. cbn [andb].
    rewrite bool_decide_eq_false_2.
    + destruct (os_path_exists fs _); eexists; (split; [|reflexivity]); eauto.
    + intros Heq. rewrite Heq, fixed_name_not_json in Hext. done.
Qed.

End Collector.

(** * Instances on the sample inputs *)

Import Samples.

(** Two JSON files describe [a.jpg]; the caption of the second one is the
    one the collector returns. *)
Lemma merge_law_witness :
  (collect_all_caption_data decimal_int ascii_lower plain_repr two_file_disk
     (lit "data") false).1
    !! lit "data/rxxch9vw59.2/images/a.jpg"
  = Some [lit "<start>second "]
  ∧ ([lit "<start>first "] ≠ [] →
     (collect_all_caption_data decimal_int ascii_lower plain_repr two_file_disk
        (lit "data") false).1
       !! lit "data/rxxch9vw59.2/images/a.jpg"
     ≠ Some ([lit "<start>first "] ++ [lit "<start>second "])).
Proof.
  apply (merge_law decimal_int ascii_lower plain_repr two_file_disk
           (lit "data") false
           [] (lit "data") (lit "captions_a.json")
           [] (lit "data") (lit "Captions_B.json")
           [(lit "data", lit "notes.txt")]).
  - vm_compute. reflexivity.
  - vm_compute. reflexivity.
  - vm_compute. reflexivity.
  - intros root file Hin. apply list_elem_of_singleton in Hin.
    injection Hin as -> ->. vm_compute. reflexivity.
Defined.

(** The wrappers on the sample files: the row [photo1.jpg#1; " Hello "] of
    the sheet, the row [img2.jpg#0; " first "] of the CSV file and the
    record [" a.jpg "] of the JSON file. *)
Lemma caption_formats_witness :
  caption_mapping
    (xlsx_row decimal_int photo_disk (lit "root") false [] 3 1
       (sheet_row [plain_cell "photo1.jpg#1"; plain_cell " Hello "]) entry).2
    !! image_path (lit "root") (xlsx_image_name (lit "photo1.jpg#1"))
  = Some (default [] (caption_mapping entry
                        !! image_path (lit "root")
                             (xlsx_image_name (lit "photo1.jpg#1")))
          ++ [lit "<start> " ++ strip (lit " Hello ") ++ lit " <end>"])
  ∧ (∃ xlsx shared tree row cell0 cell1 cells name caption,
        ZipFile photo_disk (lit "book.xlsx") = Normal xlsx
        ∧ load_shared_strings xlsx = Normal shared
        ∧ parse_member xlsx (lit "xl/worksheets/sheet1.xml") = Normal tree
        ∧ row ∈ data_rows true tree
        ∧ filter (λ el, endswith (lit "c") (tag el) = true) (children row)
          = cell0 :: cell1 :: cells
        ∧ get_cell_value decimal_int shared cell0 = Some name
        ∧ get_cell_value decimal_int shared cell1 = Some caption
        ∧ lit "root/photo1.jpg" = image_path (lit "root") (xlsx_image_name name)
        ∧ lit "<start> Hello <end>" = lit "<start> " ++ strip caption ++ lit " <end>")
  ∧ caption_mapping
      (csv_row_step photo_disk (lit "root") false 2 1
         (caption_row "img2.jpg#0" " first ") entry).2
      !! image_path (lit "root") (csv_image_name (lit "img2.jpg#0"))
    = Some (default [] (caption_mapping entry
                          !! image_path (lit "root")
                               (csv_image_name (lit "img2.jpg#0")))
            ++ [lit " <start> " ++ strip (lit " first ") ++ lit " <end> "])
  ∧ (∃ rows row name caption,
        read_csv photo_disk (lit "ban-cap.csv") = Normal rows
        ∧ row ∈ rows
        ∧ row_get (lit "caption_id") row = Some name
        ∧ row_get (lit "bengali_caption") row = Some caption
        ∧ lit "root/img2.jpg" = image_path (lit "root") (csv_image_name name)
        ∧ lit " <start> first <end> "
          = lit " <start> " ++ strip caption ++ lit " <end> ")
  ∧ (∃ items members filename raw_captions,
        json_load photo_disk (lit "captions.json") = Normal (JList items)
        ∧ JDict members ∈ items
        ∧ dict_get (lit "filename") members = Some (JStr filename)
        ∧ dict_get (lit "caption") members = Some raw_captions
        ∧ lit "root/a.jpg" = os_path_join (lit "root") (strip filename)
        ∧ [lit "<start>x "; lit "<start>y "]
          = (λ caption,
               lit "<start>" ++ strip (py_str plain_repr caption) ++ lit " ")
              <$> filter (λ caption, is_not_None caption = true)
                         (as_caption_list raw_captions)).
Proof.
  split_and!.
  - refine (proj1 (caption_formats_per_extractor decimal_int plain_repr
                     photo_disk)
              (lit "root") false [] 3 1
              (sheet_row [plain_cell "photo1.jpg#1"; plain_cell " Hello "])
              (plain_cell "photo1.jpg#1") (plain_cell " Hello ") []
              (lit "photo1.jpg#1") (lit " Hello ") entry _ _ _ _ _ _).
    + vm_compute. reflexivity.
    + vm_compute. reflexivity.
    + discriminate.
    + vm_compute. reflexivity.
    + discriminate.
    + by left.
  - refine (proj1 (proj2 (caption_formats_per_extractor decimal_int plain_repr
                            photo_disk))
              true (lit "book.xlsx") (lit "root") false (lit "root/photo1.jpg")
              [lit "<start> Hello <end>"; lit "<start> World <end>"]
              (lit "<start> Hello <end>") _ _).
    + vm_compute. reflexivity.
    + apply list_elem_of_here.
  - refine (proj1 (proj2 (proj2 (caption_formats_per_extractor decimal_int
                                   plain_repr photo_disk)))
              (lit "root") false 2 1 (caption_row "img2.jpg#0" " first ")
              (lit "img2.jpg#0") (lit " first ") entry _ _ _ _ _).
    + vm_compute. reflexivity.
    + discriminate.
    + vm_compute. reflexivity.
    + discriminate.
    + by left.
  - refine (proj1 (proj2 (proj2 (proj2 (caption_formats_per_extractor
                                          decimal_int plain_repr photo_disk))))
              (lit "ban-cap.csv") (lit "root") false (lit "root/img2.jpg")
              [lit " <start> first <end> "; lit " <start> second <end> "]
              (lit " <start> first <end> ") _ _).
    + vm_compute. reflexivity.
    + apply list_elem_of_here.
  - refine (proj1 (proj2 (proj2 (proj2 (proj2 (proj2
              (caption_formats_per_extractor decimal_int plain_repr
                 photo_disk))))))
              (lit "captions.json") (lit "root") false (lit "root/a.jpg")
              [lit "<start>x "; lit "<start>y "] _).
    vm_compute. reflexivity.
Defined.

(** The second record of the sample has a number for file name: [extract]
    returns the mapping of the first record. *)
Lemma extract_contains_errors_witness :
  (json_extract plain_repr faulty_disk (lit "captions.json") (lit "images")
     false).1
  = {[ lit "images/a.jpg" := [lit "<start>x "] ]}.
Proof.
  refine (proj2 (proj2 (proj2 (proj2 (proj2 (proj2 (proj2 (proj2 (proj2
           (extract_contains_errors decimal_int plain_repr faulty_disk)))))))))
           (lit "captions.json") (lit "images") false
           [record "a.jpg" (JStr (lit "x"))]
           (JDict [(lit "filename", JInt 3); (lit "caption", JStr (lit "y"))])
           [record "c.jpg" (JStr (lit "z"))]
           {| caption_mapping := {[ lit "images/a.jpg" := [lit "<start>x "] ]};
              processed_rows_count := 0;
              stdout := [ParsingJson (lit "captions.json"); JsonItemProgress 0] |}
           AttributeError
           {| caption_mapping := {[ lit "images/a.jpg" := [lit "<start>x "] ]};
              processed_rows_count := 0;
              stdout := [ParsingJson (lit "captions.json"); JsonItemProgress 0] |}
           _ _ _).
  - vm_compute. reflexivity.
  - vm_compute. reflexivity.
  - vm_compute. reflexivity.
Defined.

(** On the sample disk no image exists: validation on gives no key. *)
Lemma validation_monotone_witness :
  dom (xlsx_extract decimal_int photo_disk true (lit "book.xlsx") (lit "") true).1
  ⊆ dom (xlsx_extract decimal_int photo_disk true (lit "book.xlsx") (lit "")
           false).1.
Proof.
  apply (proj1 (validation_monotone decimal_int plain_repr photo_disk)).
Defined.

(** The cell [0] of the sample workbook resolves to the first shared
    string. *)
Lemma shared_string_resolution_witness :
  get_cell_value decimal_int [lit "photo1.jpg#1"; lit "Hello"] (shared_cell "0")
  = [lit "photo1.jpg#1"; lit "Hello"] !! Z.to_nat 0
  ∧ is_Some ([lit "photo1.jpg#1"; lit "Hello"] !! Z.to_nat 0).
Proof.
  apply (proj1 (proj1 (shared_string_resolution decimal_int photo_disk)
                  [lit "photo1.jpg#1"; lit "Hello"] (shared_cell "0")
                  (mkElement (ns ++ lit "v") [] (Some (lit "0")) []) (lit "0")
                  ltac:(vm_compute; reflexivity) ltac:(vm_compute; reflexivity)
                  ltac:(reflexivity) ltac:(vm_compute; discriminate))).
  - vm_compute. reflexivity.
  - simpl. lia.
Defined.

(** A record without caption is skipped with the warning. *)
Lemma json_skip_rule_witness :
  skipped_with_diagnostic plain_repr photo_disk (lit "captions.json")
    (lit "images") false 1 name_only_record entry.
Proof.
  apply (proj1 (json_skip_rule plain_repr photo_disk (lit "captions.json")
                  (lit "images") false 1 name_only_record entry)).
  right. right. intros (members & v & Hitem & Hv).
  injection Hitem as <-. vm_compute in Hv. discriminate.
Defined.

(** A record for a key that already has a caption replaces it. *)
Lemma within_file_accumulation_witness :
  caption_mapping
    (json_item plain_repr photo_disk (lit "captions.json") (lit "images") false 1
       (JDict [(lit "filename", JStr (lit "a.jpg"));
               (lit "caption", JStr (lit "new"))])
       {| caption_mapping := {[ lit "images/a.jpg" := [lit "<start>old "] ]};
          processed_rows_count := 0; stdout := [] |}).2
    !! os_path_join (lit "images") (strip (lit "a.jpg"))
  = Some (format_captions plain_repr (as_caption_list (JStr (lit "new")))).
Proof.
  apply (proj2 (proj2 (proj2 (proj2
           (within_file_accumulation decimal_int plain_repr photo_disk))))).
  - vm_compute. reflexivity.
  - vm_compute. reflexivity.
  - vm_compute. discriminate.
  - left. reflexivity.
Defined.

(** The fixed-name file without its image directory only leaves the
    warning. *)
Lemma fixed_name_route_is_fatal_witness :
  collect_file decimal_int ascii_lower plain_repr photo_disk (lit "data") false
    (lit "data") (lit "BanglaView_Dataset.xlsx") (∅, [Scanning (lit "data")])
  = (∅, [Scanning (lit "data")]
        ++ [BanglaViewDirMissing
              (os_path_join3 (lit "data") (lit "flickr30k_images")
                 (lit "flickr30k_images"))]).
Proof.
  apply (proj1 (fixed_name_route_is_fatal decimal_int ascii_lower plain_repr
                  photo_disk)
           (lit "data") false (lit "data") (lit "BanglaView_Dataset.xlsx")
           (∅, [Scanning (lit "data")])).
  - vm_compute. reflexivity.
  - reflexivity.
Defined.

(** The name [img2.jpg#0] is cut to [img2.jpg]. *)
Lemma hash_suffix_normalization_witness :
  csv_image_name (lit "img2.jpg" ++ lit "#" ++ lit "0") = lit "img2.jpg".
Proof.
  apply (proj1 (hash_suffix_normalization decimal_int photo_disk
                  (lit "img2.jpg") (lit "0") ltac:(vm_compute; reflexivity))).
Defined.

(** A file name with [#] and [*MG*] is the key as it is, trimmed. *)
Lemma json_key_witness :
  caption_mapping
    (json_item plain_repr photo_disk (lit "captions.json") (lit "images") false 1
       (JDict [(lit "filename", JStr (lit " b#1*MG*.jpg "));
               (lit "caption", JStr (lit "z"))])
       entry).2
  = <[os_path_join (lit "images") (strip (lit " b#1*MG*.jpg ")) :=
        format_captions plain_repr (as_caption_list (JStr (lit "z")))]>
      (caption_mapping entry).
Proof.
  apply (proj1 (json_key_is_joined_trimmed_filename plain_repr photo_disk)).
  - vm_compute. reflexivity.
  - vm_compute. reflexivity.
  - vm_compute. discriminate.
  - left. reflexivity.
Defined.

(** ** The parsers on the sample files *)

Example spreadsheet_scenario :
  (xlsx_extract decimal_int photo_disk true (lit "book.xlsx") (lit "root")
     false).1
  = {[ lit "root/photo1.jpg" := [lit "<start> Hello <end>";
                                 lit "<start> World <end>"];
       lit "root/IMG_2.jpg" := [lit "<start> Third <end>"] ]}.
Proof. vm_compute. reflexivity. Qed.

Example csv_scenario :
  (csv_extract photo_disk (lit "ban-cap.csv") (lit "root") false).1
  = {[ lit "root/img2.jpg" := [lit " <start> first <end> ";
                               lit " <start> second <end> "] ]}.
Proof. vm_compute. reflexivity. Qed.

Example json_scenario :
  (json_extract plain_repr photo_disk (lit "captions.json") (lit "root") false).1
  = {[ lit "root/a.jpg" := [lit "<start>x "; lit "<start>y "];
       lit "root/b#1*MG*.jpg" := [lit "<start>z "] ]}.
Proof. vm_compute. reflexivity. Qed.

(** With validation on and no image on the disk nothing is kept. *)
Example validation_scenario :
  (csv_extract photo_disk (lit "ban-cap.csv") (lit "root") true).1 = ∅.
Proof. vm_compute. reflexivity. Qed.

(** ** Where the code departs from the stated rule *)

(** A record that is an object and has a [filename] member, so has one of
    the two fields, is skipped with the warning all the same. *)
Lemma json_skip_rule_counterexample :
  record_shaped name_only_record
  ∧ has_field (lit "filename") name_only_record
  ∧ skipped_with_diagnostic plain_repr photo_disk (lit "captions.json")
      (lit "images") false 1 name_only_record entry.
Proof.
  split_and!.
  - by eexists.
  - by eexists _, _.
  - vm_compute. done.
Qed.

(** The row [*MG*2.jpg#0] of the sample sheet: the text before [#] is
    [*MG*2.jpg], and the spreadsheet parser stores the caption under
    [IMG_2.jpg], not under that text. *)
Lemma hash_suffix_counterexample :
  split_head (lit "#") (lit "*MG*2.jpg#0") = lit "*MG*2.jpg"
  ∧ (xlsx_extract decimal_int photo_disk true (lit "book.xlsx") (lit "")
       false).1 !! lit "*MG*2.jpg" = None
  ∧ (xlsx_extract decimal_int photo_disk true (lit "book.xlsx") (lit "")
       false).1 !! lit "IMG_2.jpg" = Some [lit "<start> Third <end>"].
Proof. vm_compute. done. Qed.

(** * Further properties of the parsers *)

(** ** No empty caption list *)

Section NoEmptyEntry.
Variable int : str → option Z.
Variable lower : str → str.
Variable repr : json → str.
Variable fs : filesystem.

Lemma no_empty_entry_empty : no_empty_entry ∅.
Proof. by intros key captions ?%lookup_empty_Some. Qed.

Lemma no_empty_entry_append (m : mapping) key c :
  no_empty_entry m →
  no_empty_entry (<[key := default [] (m !! key) ++ [c]]> m).
Proof.
  intros Hm key' captions. rewrite lookup_insert.
  case_decide; [|by apply Hm].
  intros [= <-]. by destruct (default [] (m !! key)).
Qed.

Lemma no_empty_entry_insert (m : mapping) key captions :
  no_empty_entry m → captions ≠ [] → no_empty_entry (<[key := captions]> m).
Proof.
  intros Hm Hc key' captions'. rewrite lookup_insert.
  case_decide; [|by apply Hm]. by intros [= <-].
Qed.

Lemma no_empty_entry_update (all_captions captions : mapping) :
  no_empty_entry all_captions → no_empty_entry captions →
  no_empty_entry (dict_update all_captions captions).
Proof.
  intros Ha Hc key l. rewrite dict_update_lookup.
  destruct (captions !! key) eqn:Hk.
  - intros [= <-]. by eapply Hc.
  - by apply Ha.
Qed.

Lemma xlsx_extract_no_empty_entry has_header xlsx_file images_path validate :
  no_empty_entry
    (xlsx_extract int fs has_header xlsx_file images_path validate).1.
Proof.
  rewrite xlsx_extract_mapping.
  destruct (xlsx_try _ _ _ _ _ _ _) as [o s] eqn:Htry. revert Htry.
  apply xlsx_try_inv; [|apply no_empty_entry_empty].
  intros shared total i row s0 o0 s0' HP
    [->|(key & c & _ & ->)]%xlsx_row_effect; [done|].
  by apply no_empty_entry_append.
Qed.

Lemma csv_extract_no_empty_entry csv_file_path images_path validate :
  no_empty_entry (csv_extract fs csv_file_path images_path validate).1.
Proof.
  rewrite csv_extract_mapping.
  destruct (csv_try _ _ _ _ _) as [o s] eqn:Htry. revert Htry.
  apply csv_try_inv; [|apply no_empty_entry_empty].
  intros total i row s0 o0 s0' HP
    [->|(key & c & _ & ->)]%csv_row_effect; [done|].
  by apply no_empty_entry_append.
Qed.

Lemma json_extract_no_empty_entry file_path images_path validate :
  no_empty_entry (json_extract repr fs file_path images_path validate).1.
Proof.
  rewrite json_extract_mapping.
  destruct (json_try _ _ _ _ _ _) as [o s] eqn:Htry. revert Htry.
  apply json_try_inv; [|apply no_empty_entry_empty].
  intros i item s0 o0 s0' HP
    [->|(ms & f & raw & _ & _ & _ & Hne & _ & ->)]%json_item_effect; [done|].
  by apply no_empty_entry_insert.
Qed.

Lemma file_captions_no_empty_entry base_dir validate root file :
  no_empty_entry (file_captions int lower repr fs base_dir validate root file).
Proof.
  unfold file_captions, collect_file, merge_captions.
  repeat case_match; cbn [fst snd]; rewrite ?dict_update_empty_l;
    auto using xlsx_extract_no_empty_entry, csv_extract_no_empty_entry,
      json_extract_no_empty_entry, no_empty_entry_empty.
Qed.

(** X1. No mapping an extractor returns, and no consolidated mapping the
    collector returns, holds an empty list of captions under a key: a key is
    present only with at least one caption. *)
Theorem no_empty_caption_lists :
  (∀ has_header xlsx_file images_path validate,
      no_empty_entry
        (xlsx_extract int fs has_header xlsx_file images_path validate).1)
  ∧ (∀ csv_file_path images_path validate,
        no_empty_entry (csv_extract fs csv_file_path images_path validate).1)
  ∧ (∀ file_path images_path validate,
        no_empty_entry (json_extract repr fs file_path images_path validate).1)
  ∧ (∀ base_dir validate,
        no_empty_entry
          (collect_all_caption_data int lower repr fs base_dir validate).1).
Proof.
  split_and!.
  - apply xlsx_extract_no_empty_entry.
  - apply csv_extract_no_empty_entry.
  - apply json_extract_no_empty_entry.
  - intros base_dir validate. rewrite collect_all_caption_data_files.
    generalize (walk_files (os_walk fs base_dir)). intros files.
    assert (no_empty_entry (∅ : mapping, [Scanning base_dir]).1) as Hacc
      by apply no_empty_entry_empty.
    revert Hacc. generalize (∅ : mapping, [Scanning base_dir]).
    induction files as [|[root file] files IH]; intros acc Hacc; [done|].
    rewrite collect_files_cons. apply IH.
    rewrite collect_file_mapping.
    apply no_empty_entry_update; [done|apply file_captions_no_empty_entry].
Qed.

End NoEmptyEntry.

(** ** Validation is a filter *)

Section ValidationFilter.
Variable int : str → option Z.
Variable repr : json → str.
Variable fs : filesystem.

Lemma keep_present_lookup (m : mapping) (k : str) :
  keep_present fs m !! k = if image_present fs k then m !! k else None.
Proof.
  unfold keep_present. apply option_eq. intros v.
  rewrite map_lookup_filter_Some. cbn [fst].
  destruct (image_present fs k).
  - split; [by intros [? _]|by intros ?].
  - split; [by intros [_ ?]|done].
Qed.

Lemma keep_present_insert_present (m : mapping) (k : str) (v : list str) :
  image_present fs k = true →
  keep_present fs (<[k := v]> m) = <[k := v]> (keep_present fs m).
Proof.
  intros Hk. apply map_eq. intros j.
  rewrite keep_present_lookup, !lookup_insert, keep_present_lookup.
  case_decide; [subst; by rewrite Hk|done].
Qed.

Lemma keep_present_insert_absent (m : mapping) (k : str) (v : list str) :
  image_present fs k = false →
  keep_present fs (<[k := v]> m) = keep_present fs m.
Proof.
  intros Hk. apply map_eq. intros j.
  rewrite !keep_present_lookup, lookup_insert.
  case_decide; [subst; by rewrite Hk|done].
Qed.

(** Two runs of a loop whose iterations end the same way. *)
Lemma for_enumerate_sync {X} (R : frame → frame → Prop)
    (body1 body2 : nat → X → M unit) :
  (∀ i x s1 s2, R s1 s2 →
      (body1 i x s1).1 = (body2 i x s2).1
      ∧ R (body1 i x s1).2 (body2 i x s2).2) →
  ∀ start xs s1 s2, R s1 s2 →
    (for_enumerate start xs body1 s1).1 = (for_enumerate start xs body2 s2).1
    ∧ R (for_enumerate start xs body1 s1).2 (for_enumerate start xs body2 s2).2.
Proof.
  intros Hstep start xs. revert start.
  induction xs as [|x xs IH]; intros start s1 s2 HR; [done|].
  rewrite !for_enumerate_cons.
  destruct (Hstep start x s1 s2 HR) as [Ho HR'].
  destruct (body1 start x s1) as [[[]|e1] t1],
           (body2 start x s2) as [[[]|e2] t2]; cbn [fst snd] in *;
    try discriminate; [by apply IH|done].
Qed.

Lemma image_present_spec (p : str) :
  exists_never_raises fs →
  Path_exists fs p = Normal (image_present fs p).
Proof.
  intros Hfs. unfold image_present.
  destruct (Path_exists fs p) as [[]|e] eqn:Hp; [done|done|].
  by destruct (Hfs p e).
Qed.

Lemma xlsx_row_filter images_path shared total i row s1 s2 :
  exists_never_raises fs → present_part fs s1 s2 →
  (xlsx_row int fs images_path true shared total i row s1).1
  = (xlsx_row int fs images_path false shared total i row s2).1
  ∧ (present_part fs)
      (xlsx_row int fs images_path true shared total i row s1).2
      (xlsx_row int fs images_path false shared total i row s2).2.
Proof.
  unfold present_part, xlsx_row. intros Hfs HR. run.
  destruct (_ || _);
    (destruct (filter _ (children row)) as [|cell0 [|cell1 cells]];
     [done|done|]);
    (destruct (truthy (get_cell_value int shared cell0)); [|done]);
    cbn [fst snd caption_mapping];
    rewrite (image_present_spec _ Hfs);
    destruct (image_present fs _) eqn:Hp;
    destruct (truthy (get_cell_value int shared cell1));
    cbn [fst snd caption_mapping]; split; try done.
  all: first [ by rewrite keep_present_insert_absent
             | rewrite keep_present_insert_present by done;
               by rewrite HR, keep_present_lookup, Hp ].
Qed.

Lemma csv_row_filter images_path total i row s1 s2 :
  exists_never_raises fs → present_part fs s1 s2 →
  (csv_row_step fs images_path true total i row s1).1
  = (csv_row_step fs images_path false total i row s2).1
  ∧ (present_part fs)
      (csv_row_step fs images_path true total i row s1).2
      (csv_row_step fs images_path false total i row s2).2.
Proof.
  unfold present_part, csv_row_step. intros Hfs HR. run.
  destruct (_ || _);
    (destruct (truthy (row_get (lit "caption_id") row)
               && truthy (row_get (lit "bengali_caption") row)); [|done]);
    cbn [fst snd caption_mapping];
    rewrite (image_present_spec _ Hfs);
    destruct (image_present fs _) eqn:Hp;
    cbn [negb fst snd caption_mapping]; split; try done.
  all: first [ by rewrite keep_present_insert_absent
             | rewrite keep_present_insert_present by done;
               by rewrite HR, keep_present_lookup, Hp ].
Qed.

Lemma json_item_filter file_path images_path i item s1 s2 :
  exists_never_raises fs → present_part fs s1 s2 →
  (json_item repr fs file_path images_path true i item s1).1
  = (json_item repr fs file_path images_path false i item s2).1
  ∧ (present_part fs)
      (json_item repr fs file_path images_path true i item s1).2
      (json_item repr fs file_path images_path false i item s2).2.
Proof.
  unfold present_part, json_item. intros Hfs HR. run.
  destruct (_ =? _)%nat;
    (destruct (malformed_item item); [done|]);
    (destruct (getitem item (lit "filename")) as [filename|e]; [|done]);
    (destruct (strip_method filename) as [name|e]; [|done]);
    (destruct (getitem item (lit "caption")) as [raw|e]; [|done]);
    cbn [fst snd caption_mapping];
    rewrite (image_present_spec _ Hfs);
    destruct (image_present fs _) eqn:Hp;
    destruct (bool_decide _);
    cbn [fst snd caption_mapping]; split; try done.
  all: first [ by rewrite keep_present_insert_absent
             | by rewrite keep_present_insert_present, HR ].
Qed.

(** X2. Validation is a filter by key.  When [Path.exists] raises for no
    path, the mapping an extractor returns with validation on is the mapping
    it returns with validation off, restricted to the keys whose image is
    present: captions and their order are the same. *)
Theorem validation_is_a_filter :
  exists_never_raises fs →
  (∀ has_header xlsx_file images_path,
      (xlsx_extract int fs has_header xlsx_file images_path true).1
      = keep_present fs
          (xlsx_extract int fs has_header xlsx_file images_path false).1)
  ∧ (∀ csv_file_path images_path,
        (csv_extract fs csv_file_path images_path true).1
        = keep_present fs (csv_extract fs csv_file_path images_path false).1)
  ∧ (∀ file_path images_path,
        (json_extract repr fs file_path images_path true).1
        = keep_present fs
            (json_extract repr fs file_path images_path false).1).
Proof.
  intros Hfs.
  assert (∀ s1 s2, caption_mapping s1 = ∅ → caption_mapping s2 = ∅ →
                   present_part fs s1 s2) as Hstart.
  { intros s1 s2 H1 H2. unfold present_part. rewrite H1, H2.
    apply map_eq. intros k. rewrite keep_present_lookup, lookup_empty.
    by destruct (image_present fs k). }
  split_and!.
  - intros has_header xlsx_file images_path. rewrite !xlsx_extract_mapping.
    unfold xlsx_try. run. cbv zeta.
    destruct (ZipFile fs xlsx_file) as [xlsx|e]; [|by apply Hstart].
    destruct (bool_decide (_ ∈ namelist xlsx));
      [destruct (parse_member xlsx (lit "xl/sharedStrings.xml"));
       [|by apply Hstart]|];
      (destruct (bool_decide (_ ∉ namelist xlsx)); [by apply Hstart|]);
      (destruct (parse_member xlsx (lit "xl/worksheets/sheet1.xml"));
       [|by apply Hstart]).
    all: match goal with
         | |- caption_mapping (for_enumerate ?st ?xs ?b1 ?t1).2
              = keep_present fs (caption_mapping (for_enumerate _ _ ?b2 ?t2).2) =>
             apply (for_enumerate_sync (present_part fs) b1 b2
                      (λ i x s1 s2 HR, xlsx_row_filter _ _ _ i x s1 s2 Hfs HR)
                      st xs t1 t2)
         end; by apply Hstart.
  - intros csv_file_path images_path. rewrite !csv_extract_mapping.
    unfold csv_try. run.
    destruct (read_csv fs csv_file_path) as [rows|e]; [|by apply Hstart].
    match goal with
    | |- context [for_enumerate ?st ?xs (csv_row_step fs _ true _) ?t1] =>
        match goal with
        | |- context [for_enumerate _ _ (csv_row_step fs _ false _) ?t2] =>
            destruct (for_enumerate_sync (present_part fs) _ _
                        (λ i x s1 s2 HR,
                           csv_row_filter images_path (length rows) i x s1 s2
                             Hfs HR)
                        st xs t1 t2) as [Ho HR]; [by apply Hstart|]
        end
    end.
    destruct (for_enumerate _ _ (csv_row_step _ _ true _) _) as [[[]|e1] t1],
             (for_enumerate _ _ (csv_row_step _ _ false _) _) as [[[]|e2] t2];
      cbn [fst snd] in *; try discriminate; exact HR.
  - intros file_path images_path. rewrite !json_extract_mapping.
    unfold json_try. run.
    destruct (json_load fs file_path) as [caption_data|e];
      [|by apply Hstart].
    destruct caption_data as [| | | | |items|]; try by apply Hstart.
    match goal with
    | |- context [for_enumerate ?st ?xs (json_item repr fs _ _ true) ?t1] =>
        match goal with
        | |- context [for_enumerate _ _ (json_item repr fs _ _ false) ?t2] =>
            destruct (for_enumerate_sync (present_part fs) _ _
                        (λ i x s1 s2 HR,
                           json_item_filter file_path images_path i x s1 s2
                             Hfs HR)
                        st xs t1 t2) as [Ho HR]; [by apply Hstart|]
        end
    end.
    destruct (for_enumerate _ _ (json_item _ _ _ _ true) _) as [[[]|e1] t1],
             (for_enumerate _ _ (json_item _ _ _ _ false) _) as [[[]|e2] t2];
      cbn [fst snd] in *; try discriminate; exact HR.
Qed.

End ValidationFilter.

(** ** What the extractors compute *)

Section Characterisation.
Variable int : str → option Z.
Variable repr : json → str.
Variable fs : filesystem.

Lemma under_app {A} key (l1 l2 : list (str * A)) :
  under key (l1 ++ l2) = under key l1 ++ under key l2.
Proof. unfold under. by rewrite filter_app, fmap_app. Qed.

Lemma under_cons {A} key k (a : A) (l : list (str * A)) :
  under key ((k, a) :: l) = if decide (k = key) then a :: under key l else under key l.
Proof.
  unfold under. rewrite filter_cons. cbn [fst].
  by destruct (decide (k = key)).
Qed.

Lemma some_captions_default (l : list str) : default [] (some_captions l) = l.
Proof. by destruct l. Qed.

(** A loop whose iterations append what [entry] says leaves under a key the
    captions it had, followed by the captions of the entries for the key. *)
Lemma for_enumerate_appends {X} (body : nat → X → M unit)
    (entry : X → option (str * str)) :
  (∀ i x s,
      (body i x s).1 = Normal ()
      ∧ caption_mapping (body i x s).2 =
        match entry x with
        | Some (k, c) =>
            <[k := default [] (caption_mapping s !! k) ++ [c]]> (caption_mapping s)
        | None => caption_mapping s
        end) →
  ∀ xs start s key had,
    caption_mapping s !! key = some_captions had →
    (for_enumerate start xs body s).1 = Normal ()
    ∧ caption_mapping (for_enumerate start xs body s).2 !! key
      = some_captions (had ++ under key (omap entry xs)).
Proof.
  intros Hbody. induction xs as [|x xs IH]; intros start s key had Hs.
  - cbn. by rewrite app_nil_r.
  - rewrite for_enumerate_cons.
    destruct (Hbody start x s) as [Ho Hm].
    destruct (body start x s) as [[[]|e] s1]; cbn [fst snd] in *; [|done].
    cbn [omap list_omap]. destruct (entry x) as [[k c]|].
    + rewrite under_cons. destruct (decide (k = key)) as [->|Hk].
      * replace (had ++ c :: under key (omap entry xs))
          with ((had ++ [c]) ++ under key (omap entry xs))
          by (by rewrite <- app_assoc).
        apply IH. rewrite Hm, lookup_insert_eq, Hs, some_captions_default.
        by destruct had.
      * apply IH. by rewrite Hm, lookup_insert_ne.
    + apply IH. by rewrite Hm.
Qed.

Lemma csv_row_appends images_path total i row s :
  (csv_row_step fs images_path false total i row s).1 = Normal ()
  ∧ caption_mapping (csv_row_step fs images_path false total i row s).2 =
    match csv_entry images_path row with
    | Some (k, c) =>
        <[k := default [] (caption_mapping s !! k) ++ [c]]> (caption_mapping s)
    | None => caption_mapping s
    end.
Proof.
  unfold csv_row_step, csv_entry. run.
  destruct (_ || _);
    destruct (row_get (lit "caption_id") row) as [[|c name]|];
    destruct (row_get (lit "bengali_caption") row) as [[|d caption]|];
    done.
Qed.

Lemma xlsx_row_appends images_path shared total i row s :
  (xlsx_row int fs images_path false shared total i row s).1 = Normal ()
  ∧ caption_mapping (xlsx_row int fs images_path false shared total i row s).2 =
    match xlsx_entry int shared images_path row with
    | Some (k, c) =>
        <[k := default [] (caption_mapping s !! k) ++ [c]]> (caption_mapping s)
    | None => caption_mapping s
    end.
Proof.
  unfold xlsx_row, xlsx_entry. run.
  destruct (_ || _);
    (destruct (filter _ (children row)) as [|cell0 [|cell1 cells]];
     [done|done|]);
    destruct (get_cell_value int shared cell0) as [[|c name]|];
    destruct (get_cell_value int shared cell1) as [[|d caption]|];
    done.
Qed.

(** X3. With validation off the CSV parser returns, under each key, the
    formatted captions of the rows that have that image path, in the order
    of the rows; a key no row has is absent. *)
Theorem csv_extract_characterised :
  ∀ csv_file_path images_path rows key,
    read_csv fs csv_file_path = Normal rows →
    (csv_extract fs csv_file_path images_path false).1 !! key
    = some_captions (under key (omap (csv_entry images_path) rows)).
Proof.
  intros csv_file_path images_path rows key Hread.
  rewrite csv_extract_mapping. unfold csv_try. run. rewrite Hread.
  match goal with
  | |- context [for_enumerate ?st rows ?b ?t] =>
      destruct (for_enumerate_appends b (csv_entry images_path)
                  (csv_row_appends images_path (length rows))
                  rows st t key []) as [Ho Hm]; [done|]
  end.
  destruct (for_enumerate _ _ _ _) as [[[]|e] t1]; cbn [fst snd] in *; done.
Qed.

(** X4. With validation off the spreadsheet parser returns, under each key,
    the formatted captions of the rows after the header that have that image
    path, in the order of the rows; a key no row has is absent. *)
Theorem xlsx_extract_characterised :
  ∀ has_header xlsx_file images_path xlsx shared tree key,
    ZipFile fs xlsx_file = Normal xlsx →
    load_shared_strings xlsx = Normal shared →
    lit "xl/worksheets/sheet1.xml" ∈ namelist xlsx →
    parse_member xlsx (lit "xl/worksheets/sheet1.xml") = Normal tree →
    (xlsx_extract int fs has_header xlsx_file images_path false).1 !! key
    = some_captions
        (under key
           (omap (xlsx_entry int shared images_path)
              (data_rows has_header tree))).
Proof.
  intros has_header xlsx_file images_path xlsx shared tree key
    Hzip Hshared Hin Htree.
  rewrite xlsx_extract_mapping.
  rewrite (xlsx_try_loaded _ _ _ _ _ _ _ _ _ _ Hzip Hshared Hin Htree).
  by apply (for_enumerate_appends _ (xlsx_entry int shared images_path)
              (xlsx_row_appends images_path shared _) _ _ _ key []).
Qed.

(** A loop whose iterations assign what [entry] says leaves under a key the
    value of the last entry for the key. *)
Lemma for_enumerate_assigns {X} (body : nat → X → M unit)
    (entry : X → option (str * list str)) (xs : list X) :
  (∀ i x s, x ∈ xs →
      (body i x s).1 = Normal ()
      ∧ caption_mapping (body i x s).2 =
        match entry x with
        | Some (k, v) => <[k := v]> (caption_mapping s)
        | None => caption_mapping s
        end) →
  ∀ start s key,
    (for_enumerate start xs body s).1 = Normal ()
    ∧ caption_mapping (for_enumerate start xs body s).2 !! key
      = match last (under key (omap entry xs)) with
        | Some v => Some v
        | None => caption_mapping s !! key
        end.
Proof.
  induction xs as [|x xs IH]; intros Hbody start s key; [done|].
  rewrite for_enumerate_cons.
  destruct (Hbody start x s) as [Ho Hm]; [left|].
  destruct (body start x s) as [[[]|e] s1]; cbn [fst snd] in *; [|done].
  destruct (IH (λ i y t Hy, Hbody i y t (list_elem_of_further _ _ _ Hy))
              (S start) s1 key) as [Ho' Hm'].
  split; [done|]. rewrite Hm'. cbn [omap list_omap].
  destruct (entry x) as [[k v]|]; [|by rewrite Hm].
  rewrite under_cons. destruct (decide (k = key)) as [->|Hk].
  - rewrite last_cons. destruct (last (under key (omap entry xs))); [done|].
    by rewrite Hm, lookup_insert_eq.
  - destruct (last (under key (omap entry xs))); [done|].
    by rewrite Hm, lookup_insert_ne.
Qed.

Lemma json_item_assigns file_path images_path i item s :
  (∀ members v, item = JDict members →
     dict_get (lit "filename") members = Some v →
     is_Some (dict_get (lit "caption") members) →
     ∃ filename, v = JStr filename) →
  (json_item repr fs file_path images_path false i item s).1 = Normal ()
  ∧ caption_mapping (json_item repr fs file_path images_path false i item s).2 =
    match json_entry repr images_path item with
    | Some (k, v) => <[k := v]> (caption_mapping s)
    | None => caption_mapping s
    end.
Proof.
  intros Htext. unfold json_item, json_entry, malformed_item, getitem. run.
  destruct item as [| | | | | |members];
    try (by destruct (_ =? _)%nat).
  cbn [isinstance_dict key_in negb orb].
  destruct (dict_get (lit "filename") members) as [v|] eqn:Hf;
    [|by destruct (_ =? _)%nat].
  destruct (dict_get (lit "caption") members) as [raw|] eqn:Hc.
  - destruct (Htext members v eq_refl Hf) as [filename ->]; [by eexists|].
    rewrite !bool_decide_eq_true_2 by eauto. cbn [negb orb strip_method].
    destruct (format_captions repr (as_caption_list raw)) as [|c l] eqn:Hl.
    + rewrite bool_decide_eq_false_2 by (by intros ?). by destruct (_ =? _)%nat.
    + rewrite bool_decide_eq_true_2 by done. by destruct (_ =? _)%nat.
  - rewrite (bool_decide_eq_false_2 (is_Some None)) by (by intros [? ?]).
    rewrite orb_true_r. by destruct (_ =? _)%nat; destruct v.
Qed.

(** X5. With validation off, and when every record that has both members
    has a text for file name, the JSON parser returns under each key the
    formatted captions of the last record that has that image path and at
    least one caption; a key no such record has is absent. *)
Theorem json_extract_characterised :
  ∀ file_path images_path items key,
    json_load fs file_path = Normal (JList items) →
    filenames_are_text items →
    (json_extract repr fs file_path images_path false).1 !! key
    = last (under key (omap (json_entry repr images_path) items)).
Proof.
  intros file_path images_path items key Hload Htext.
  rewrite json_extract_mapping. unfold json_try. run. rewrite Hload.
  match goal with
  | |- context [for_enumerate ?st items ?b ?t] =>
      destruct (for_enumerate_assigns b (json_entry repr images_path) items
                  (λ i x s Hx,
                     json_item_assigns file_path images_path i x s
                       (λ members v Hitem, Htext members v
                          (eq_rect _ (λ y, y ∈ items) Hx _ Hitem)))
                  st t key) as [Ho Hm]
  end.
  destruct (for_enumerate _ _ _ _) as [[[]|e] t1]; cbn [fst snd] in *;
    [|done].
  cbn [fst snd caption_mapping entry] in *. rewrite Hm, lookup_empty.
  by destruct (last _).
Qed.

End Characterisation.

(** ** Where the consolidated mapping comes from *)

Section Provenance.
Variable int : str → option Z.
Variable lower : str → str.
Variable repr : json → str.
Variable fs : filesystem.

(** The value of a key after a list of files: the value of the last file
    that has the key, or the value before when no file has it. *)
Lemma collect_files_lookup base_dir validate files acc (K : str) :
  (∃ before root file after v,
      files = before ++ (root, file) :: after
      ∧ file_captions int lower repr fs base_dir validate root file !! K = Some v
      ∧ (∀ r f, (r, f) ∈ after →
           file_captions int lower repr fs base_dir validate r f !! K = None)
      ∧ (collect_files int lower repr fs base_dir validate acc files).1 !! K
        = Some v)
  ∨ ((∀ r f, (r, f) ∈ files →
        file_captions int lower repr fs base_dir validate r f !! K = None)
     ∧ (collect_files int lower repr fs base_dir validate acc files).1 !! K
       = acc.1 !! K).
Proof.
  induction files as [|[root file] files IH] using rev_ind.
  - right. split; [by intros r f ?%elem_of_nil|done].
  - rewrite collect_files_app, collect_files_cons. cbn [collect_files foldl].
    rewrite collect_file_mapping, dict_update_lookup.
    destruct (file_captions _ _ _ _ _ _ root file !! K) as [v|] eqn:Hv.
    + left. exists files, root, file, [], v.
      split_and!; [done|done|by intros r f ?%elem_of_nil|done].
    + destruct IH as [(before & r0 & f0 & after & v & -> & Hv0 & Hafter & Hres)
                     |[Hnone Hres]].
      * left. exists before, r0, f0, (after ++ [(root, file)]), v.
        split_and!; [by rewrite <- app_assoc|done| |done].
        intros r f [?|Hin%list_elem_of_singleton]%elem_of_app; [by apply Hafter|].
        by injection Hin as -> ->.
      * right. split; [|done].
        intros r f [?|Hin%list_elem_of_singleton]%elem_of_app; [by apply Hnone|].
        by injection Hin as -> ->.
Qed.

(** X6. Every entry of the consolidated mapping is the entry of one file of
    the walk: the value under a key is the caption list of a single file,
    whole, never a mix of the captions of several files; and a key is present
    exactly when some file of the walk has it. *)
Theorem consolidated_entries_come_from_one_file :
  ∀ base_dir validate K,
    (∀ v,
        (collect_all_caption_data int lower repr fs base_dir validate).1 !! K
          = Some v →
        ∃ root file,
          (root, file) ∈ walk_files (os_walk fs base_dir)
          ∧ file_captions int lower repr fs base_dir validate root file !! K
            = Some v)
    ∧ (K ∈ dom (collect_all_caption_data int lower repr fs base_dir validate).1
       ↔ ∃ root file,
           (root, file) ∈ walk_files (os_walk fs base_dir)
           ∧ K ∈ dom (file_captions int lower repr fs base_dir validate
                        root file)).
Proof.
  intros base_dir validate K. rewrite collect_all_caption_data_files.
  destruct (collect_files_lookup base_dir validate
              (walk_files (os_walk fs base_dir)) (∅, [Scanning base_dir]) K)
    as [(before & root & file & after & v & Hfiles & Hv & Hafter & Hres)
       |[Hnone Hres]].
  - assert ((root, file) ∈ walk_files (os_walk fs base_dir)) as Hin.
    { rewrite Hfiles. apply elem_of_app. right. left. }
    split.
    + intros v'. rewrite Hres. intros [= <-]. eauto.
    + rewrite elem_of_dom, Hres. split; [|by eauto].
      intros _. exists root, file. split; [done|].
      apply elem_of_dom. eauto.
  - cbn [fst] in Hres. rewrite lookup_empty in Hres. split.
    + intros v'. by rewrite Hres.
    + rewrite elem_of_dom, Hres. split; [by intros [? ?]|].
      intros (root & file & Hin & [v Hv]%elem_of_dom).
      by rewrite Hnone in Hv.
Qed.

(** X7. When the per-file mappings of the files agree on the keys they
    share (as they do when no two files describe the same image), the
    consolidated mapping does not depend on the order of the walk. *)
Theorem walk_order_is_irrelevant_when_files_agree :
  ∀ base_dir validate acc files files',
    files ≡ₚ files' →
    files_agree int lower repr fs base_dir validate files →
    (collect_files int lower repr fs base_dir validate acc files).1
    = (collect_files int lower repr fs base_dir validate acc files').1.
Proof.
  intros base_dir validate acc files files' Hperm Hagree.
  apply map_eq. intros K.
  destruct (collect_files_lookup base_dir validate files acc K)
    as [(b1 & r1 & f1 & a1 & v1 & Hf1 & Hv1 & _ & ->)|[Hnone1 ->]];
    destruct (collect_files_lookup base_dir validate files' acc K)
    as [(b2 & r2 & f2 & a2 & v2 & Hf2 & Hv2 & _ & ->)|[Hnone2 ->]].
  - f_equal. eapply (Hagree r1 f1 r2 f2 K); [| |done|done].
    + rewrite Hf1. apply elem_of_app. right. left.
    + rewrite Hperm, Hf2. apply elem_of_app. right. left.
  - rewrite Hnone2 in Hv1; [done|].
    rewrite <- Hperm, Hf1. apply elem_of_app. right. left.
  - rewrite Hnone1 in Hv2; [done|].
    rewrite Hperm, Hf2. apply elem_of_app. right. left.
  - done.
Qed.

End Provenance.

(** ** Names and captions *)

Section NamesAndCaptions.
Variable repr : json → str.

Lemma split_head_without (c : N) (s : str) : c ∉ split_head [c] s.
Proof.
  induction s as [|d s IH]; cbn [split_head startswith].
  - apply not_elem_of_nil.
  - rewrite andb_true_r. destruct (N.eqb_spec c d) as [->|Hd].
    + apply not_elem_of_nil.
    + apply not_elem_of_cons. split; [done|apply IH].
Qed.

Lemma replace_from_without (c : N) (old new : str) k (s : str) :
  c ∉ new → c ∉ s → c ∉ replace_from old new k s.
Proof.
  intros Hnew. revert k. induction s as [|d s IH]; intros k Hs; [done|].
  apply not_elem_of_cons in Hs as [Hd Hs]. cbn [replace_from].
  destruct k as [|k]; [|by apply IH].
  destruct (startswith old (d :: s)).
  - apply not_elem_of_app. split; [done|by apply IH].
  - apply not_elem_of_cons. split; [done|by apply IH].
Qed.

Lemma not_contains_char (c : N) (s : str) : c ∉ s → contains [c] s = false.
Proof.
  intros Hc. destruct (contains [c] s) eqn:H; [|done].
  by apply contains_char in H.
Qed.

(** X8. The image name a spreadsheet or CSV row contributes never contains
    [#], whatever the raw name is. *)
Theorem image_names_have_no_hash :
  ∀ raw,
    contains (lit "#") (csv_image_name raw) = false
    ∧ contains (lit "#") (xlsx_image_name raw) = false.
Proof.
  intros raw. unfold csv_image_name, xlsx_image_name. rewrite lit_hash.
  assert (35%N ∉ (if contains [35%N] raw then split_head [35%N] raw else raw))
    as Hcut.
  { destruct (contains [35%N] raw) eqn:Hc; [apply split_head_without|].
    intros Hin%contains_char. congruence. }
  split; apply not_contains_char; [done|].
  apply replace_from_without; [|done].
  intros Hin%contains_char. vm_compute in Hin. discriminate.
Qed.

(** *** White space around a caption *)

Lemma lstrip_spaces (ws s : str) :
  forallb isspace ws = true → lstrip (ws ++ s) = lstrip s.
Proof.
  induction ws as [|c ws IH]; [done|].
  cbn [forallb app lstrip]. intros [-> Hws]%andb_true_iff. by apply IH.
Qed.

Lemma lstrip_app (s t : str) :
  lstrip (s ++ t) = if bool_decide (lstrip s = []) then lstrip t else lstrip s ++ t.
Proof.
  induction s as [|c s IH]; cbn [app lstrip].
  - by rewrite bool_decide_eq_true_2.
  - destruct (isspace c); [done|]. by rewrite bool_decide_eq_false_2.
Qed.

Lemma forallb_reverse {A} (f : A → bool) (l : list A) :
  forallb f (reverse l) = forallb f l.
Proof.
  induction l as [|x l IH]; [done|].
  rewrite reverse_cons, forallb_app, IH. cbn [forallb].
  by rewrite andb_true_r, andb_comm.
Qed.

Lemma rstrip_spaces (s ws : str) :
  forallb isspace ws = true → rstrip (s ++ ws) = rstrip s.
Proof.
  intros Hws. unfold rstrip. rewrite reverse_app, lstrip_spaces; [done|].
  by rewrite forallb_reverse.
Qed.

Lemma lstrip_all_spaces (ws : str) : forallb isspace ws = true → lstrip ws = [].
Proof.
  intros Hws. rewrite <- (app_nil_r ws). by rewrite lstrip_spaces.
Qed.

(** [strip] does not see white space around its argument. *)
Lemma strip_spaces (ws1 s ws2 : str) :
  forallb isspace ws1 = true → forallb isspace ws2 = true →
  strip (ws1 ++ s ++ ws2) = strip s.
Proof.
  intros H1 H2. unfold strip. rewrite lstrip_spaces by done.
  rewrite lstrip_app. case_bool_decide as Hs.
  - rewrite Hs, lstrip_all_spaces by done. done.
  - by rewrite rstrip_spaces.
Qed.

(** What [lstrip] returns does not start with white space. *)
Lemma lstrip_head (s : str) :
  match lstrip s with c :: _ => isspace c = false | [] => True end.
Proof.
  induction s as [|c s IH]; [done|]. cbn [lstrip].
  by destruct (isspace c) eqn:Hc.
Qed.

(** What [lstrip] removes is white space only: the result is a suffix. *)
Lemma lstrip_suffix (s : str) :
  ∃ ws, forallb isspace ws = true ∧ s = ws ++ lstrip s.
Proof.
  induction s as [|c s (ws & Hws & Hs)]; [by exists []|]. cbn [lstrip].
  destruct (isspace c) eqn:Hc.
  - exists (c :: ws). cbn [forallb]. rewrite Hc, Hws. split; [done|].
    cbn [app]. by f_equal.
  - by exists [].
Qed.

(** X9. A formatted caption depends on the raw caption only up to the white
    space around it; the text between the markers neither starts nor ends
    with white space; and a raw caption of white space only is formatted as
    the bare markers. *)
Theorem captions_are_trimmed :
  (∀ ws1 c ws2,
      forallb isspace ws1 = true → forallb isspace ws2 = true →
      xlsx_formatted_caption (ws1 ++ c ++ ws2) = xlsx_formatted_caption c
      ∧ csv_formatted_caption (ws1 ++ c ++ ws2) = csv_formatted_caption c
      ∧ json_formatted_caption repr (JStr (ws1 ++ c ++ ws2))
        = json_formatted_caption repr (JStr c))
  ∧ (∀ c,
        match strip c with
        | first :: _ => isspace first = false
        | [] => True
        end
        ∧ match last (strip c) with
          | Some final => isspace final = false
          | None => True
          end)
  ∧ (∀ ws,
        forallb isspace ws = true →
        xlsx_formatted_caption ws = lit "<start> " ++ lit " <end>"
        ∧ csv_formatted_caption ws = lit " <start> " ++ lit " <end> "
        ∧ json_formatted_caption repr (JStr ws) = lit "<start>" ++ lit " ").
Proof.
  split_and!.
  - intros ws1 c ws2 H1 H2.
    unfold xlsx_formatted_caption, csv_formatted_caption,
      json_formatted_caption, py_str.
    by rewrite strip_spaces.
  - intros c. unfold strip, rstrip. split.
    + destruct (lstrip_suffix (reverse (lstrip c))) as (ws & Hws & Hrev).
      apply (f_equal reverse) in Hrev.
      rewrite reverse_involutive, reverse_app in Hrev.
      pose proof (lstrip_head c) as Hhead. rewrite Hrev in Hhead.
      destruct (reverse (lstrip (reverse (lstrip c)))) as [|first t]; [done|].
      exact Hhead.
    + rewrite last_reverse.
      pose proof (lstrip_head (reverse (lstrip c))) as Hhead.
      by destruct (lstrip (reverse (lstrip c))).
  - intros ws Hws.
    assert (strip ws = []) as Hs.
    { unfold strip. by rewrite lstrip_all_spaces. }
    unfold xlsx_formatted_caption, csv_formatted_caption,
      json_formatted_caption, py_str.
    by rewrite Hs.
Qed.

End NamesAndCaptions.

(** ** Paths and counts *)

Section PathsAndCounts.
Variable fs : filesystem.

(** X10. The guard [if images_path] changes nothing: the spreadsheet and CSV
    parsers build the image path as the plain join of [images_path] and the
    name, as the JSON parser does.  In particular a name that starts with
    [/] is the path whatever the image root is, and with an empty image root
    the name is the path. *)
Theorem image_path_is_the_join :
  ∀ images_path name,
    image_path images_path name = os_path_join images_path name
    ∧ (startswith (lit "/") name = true → image_path images_path name = name)
    ∧ (images_path = [] → os_path_join images_path name = name).
Proof.
  intros images_path name.
  assert (os_path_join [] name = name) as Hempty.
  { unfold os_path_join. by destruct (startswith (lit "/") name). }
  split_and!.
  - unfold image_path. by destruct images_path.
  - intros Habs. unfold image_path, os_path_join. rewrite Habs.
    by destruct images_path.
  - by intros ->.
Qed.

Lemma caption_count_insert (m : mapping) (k : str) (l : list str) :
  m !! k = None → caption_count (<[k := l]> m) = length l + caption_count m.
Proof.
  intros Hk. unfold caption_count.
  rewrite map_fold_insert_L; [done| |done]. intros. lia.
Qed.

Lemma caption_count_append (m : mapping) (k c : str) :
  caption_count (<[k := default [] (m !! k) ++ [c]]> m) = S (caption_count m).
Proof.
  destruct (m !! k) as [l|] eqn:Hk; cbn [from_option id].
  - rewrite <- (insert_delete_id m k l Hk) at 2.
    rewrite <- insert_delete_eq.
    rewrite !caption_count_insert by apply lookup_delete_eq.
    rewrite length_app. cbn [length]. lia.
  - by rewrite caption_count_insert.
Qed.

Lemma csv_row_count images_path validate total i row s o s' :
  processed_rows_count s = caption_count (caption_mapping s) →
  csv_row_step fs images_path validate total i row s = (o, s') →
  processed_rows_count s' = caption_count (caption_mapping s').
Proof.
  unfold csv_row_step. intros Hs H. run_cases; try done;
    by rewrite caption_count_append, Hs.
Qed.

Lemma csv_row_normal images_path validate total i row s :
  validate = false ∨ exists_never_raises fs →
  (csv_row_step fs images_path validate total i row s).1 = Normal ().
Proof.
  intros Hv. unfold csv_row_step. run.
  destruct (_ || _); (destruct (_ && _); [|done]);
    (destruct validate; [|done]); destruct Hv as [?|Hfs]; try done;
    cbn [fst snd];
    (destruct (Path_exists fs _) as [[]|e] eqn:Hp; [done|done|]);
    by destruct (Hfs _ _ Hp).
Qed.

Lemma for_enumerate_normal {X} (body : nat → X → M unit) :
  (∀ i x s, (body i x s).1 = Normal ()) →
  ∀ xs start s, (for_enumerate start xs body s).1 = Normal ().
Proof.
  intros Hbody. induction xs as [|x xs IH]; intros start s; [done|].
  rewrite for_enumerate_cons. specialize (Hbody start x s).
  destruct (body start x s) as [[[]|e] s1]; [apply IH|done].
Qed.

(** X11. The number the CSV parser prints when it has gone through a file
    is the number of captions in the mapping it returns: when the file can
    be read, and validation is off or [Path.exists] raises for no path, the
    last line printed is the closing line with that number. *)
Theorem csv_count_is_the_number_of_captions :
  ∀ csv_file_path images_path validate rows,
    read_csv fs csv_file_path = Normal rows →
    validate = false ∨ exists_never_raises fs →
    last (csv_extract fs csv_file_path images_path validate).2
    = Some (FinishedParsing csv_file_path
              (caption_count
                 (csv_extract fs csv_file_path images_path validate).1)).
Proof.
  intros csv_file_path images_path validate rows Hread Hv.
  unfold csv_extract, csv_try. run. rewrite Hread.
  match goal with
  | |- context [for_enumerate ?st rows ?b ?t] =>
      pose proof (for_enumerate_normal b
                    (λ i x s,
                       csv_row_normal images_path validate (length rows) i x s
                         Hv)
                    rows st t) as Ho;
      assert (processed_rows_count (for_enumerate st rows b t).2
              = caption_count (caption_mapping (for_enumerate st rows b t).2))
        as Hcount
  end.
  { destruct (for_enumerate _ _ _ _) as [o s'] eqn:Hloop. revert Hloop.
    apply (for_enumerate_inv
             (λ s, processed_rows_count s = caption_count (caption_mapping s)));
      [|done].
    intros. by eapply csv_row_count. }
  destruct (for_enumerate _ _ _ _) as [[[]|e] s']; cbn [fst snd] in *; [|done].
  cbn [stdout caption_mapping]. by rewrite last_snoc, Hcount.
Qed.

End PathsAndCounts.

(** ** Validation at the level of the collector *)

Section CollectorValidation.
Variable int : str → option Z.
Variable lower : str → str.
Variable repr : json → str.
Variable fs : filesystem.

Lemma keep_present_empty : keep_present fs ∅ = ∅.
Proof. apply map_filter_empty. Qed.

Lemma keep_present_update (all_captions captions : mapping) :
  keep_present fs (dict_update all_captions captions)
  = dict_update (keep_present fs all_captions) (keep_present fs captions).
Proof.
  apply map_eq. intros K.
  rewrite keep_present_lookup, !dict_update_lookup, !keep_present_lookup.
  destruct (image_present fs K); [done|].
  by destruct (captions !! K).
Qed.

Lemma file_captions_filter base_dir root file :
  exists_never_raises fs →
  file_captions int lower repr fs base_dir true root file
  = keep_present fs (file_captions int lower repr fs base_dir false root file).
Proof.
  intros Hfs.
  destruct (validation_is_a_filter int repr fs Hfs) as (Hx & Hc & Hj).
  unfold file_captions, collect_file, merge_captions.
  repeat case_match; cbn [fst snd];
    rewrite ?dict_update_empty_l, ?keep_present_empty; auto.
Qed.

(** X12. Validation is a filter for the collector as well: when
    [Path.exists] raises for no path, the consolidated mapping with
    validation on is the consolidated mapping with validation off,
    restricted to the keys whose image is present. *)
Theorem collector_validation_is_a_filter :
  exists_never_raises fs →
  ∀ base_dir,
    (collect_all_caption_data int lower repr fs base_dir true).1
    = keep_present fs
        (collect_all_caption_data int lower repr fs base_dir false).1.
Proof.
  intros Hfs base_dir. rewrite !collect_all_caption_data_files.
  generalize (walk_files (os_walk fs base_dir)). intros files.
  assert ((∅ : mapping, [Scanning base_dir]).1
          = keep_present fs (∅ : mapping, [Scanning base_dir]).1) as Hacc
    by (symmetry; apply keep_present_empty).
  revert Hacc.
  generalize (∅ : mapping, [Scanning base_dir]) at 1 3.
  generalize (∅ : mapping, [Scanning base_dir]).
  induction files as [|[root file] files IH]; intros acc2 acc1 Hacc; [done|].
  rewrite !collect_files_cons. apply IH.
  rewrite !collect_file_mapping, keep_present_update, Hacc.
  by rewrite file_captions_filter.
Qed.

End CollectorValidation.

(** ** Cells that do not refer to the shared strings *)

Section PlainCells.
Variable int : str → option Z.

(** X13. A cell whose type marker is not [s] resolves to the text of its
    value element as it is, whatever the shared-string table holds; a cell
    without value element, or whose value element has no text or an empty
    text, resolves to nothing, whatever its type marker is. *)
Theorem plain_cell_resolution :
  (∀ shared cell v txt,
      attrib_get (lit "t") (attrib cell) ≠ Some (lit "s") →
      head (filter (λ v, endswith (lit "v") (tag v) = true) (children cell))
        = Some v →
      text v = Some txt → txt ≠ [] →
      get_cell_value int shared cell = Some txt)
  ∧ (∀ shared cell,
        head (filter (λ v, endswith (lit "v") (tag v) = true) (children cell))
          = None →
        get_cell_value int shared cell = None)
  ∧ (∀ shared cell v,
        head (filter (λ v, endswith (lit "v") (tag v) = true) (children cell))
          = Some v →
        text v = None ∨ text v = Some [] →
        get_cell_value int shared cell = None).
Proof.
  split_and!.
  - intros shared cell v txt Ht Hv Htxt Hne. unfold get_cell_value.
    rewrite Hv, Htxt, truthy_Some by done.
    by rewrite bool_decide_eq_false_2.
  - intros shared cell Hv. unfold get_cell_value. by rewrite Hv.
  - intros shared cell v Hv [Htxt|Htxt]; unfold get_cell_value;
      by rewrite Hv, Htxt.
Qed.

End PlainCells.

(** ** Instances of the further properties *)

Lemma no_empty_caption_lists_witness : [lit "<start> Third <end>"] ≠ [].
Proof.
  apply (proj1 (no_empty_caption_lists decimal_int ascii_lower plain_repr
                  photo_disk)
           true (lit "book.xlsx") (lit "root") false (lit "root/IMG_2.jpg")).
  vm_compute. reflexivity.
Defined.

Lemma validation_is_a_filter_witness :
  (xlsx_extract decimal_int one_image_disk true (lit "book.xlsx") (lit "root")
     true).1
  = keep_present one_image_disk
      (xlsx_extract decimal_int one_image_disk true (lit "book.xlsx")
         (lit "root") false).1.
Proof.
  apply (proj1 (validation_is_a_filter decimal_int plain_repr one_image_disk
                  ltac:(intros p e; simpl; discriminate))).
Defined.

Lemma csv_extract_characterised_witness :
  (csv_extract photo_disk (lit "ban-cap.csv") (lit "root") false).1
    !! lit "root/img2.jpg"
  = some_captions
      (under (lit "root/img2.jpg") (omap (csv_entry (lit "root")) photo_rows)).
Proof.
  apply (csv_extract_characterised photo_disk (lit "ban-cap.csv") (lit "root")
           photo_rows).
  reflexivity.
Defined.

Lemma xlsx_extract_characterised_witness :
  (xlsx_extract decimal_int photo_disk true (lit "book.xlsx") (lit "root")
     false).1 !! lit "root/photo1.jpg"
  = some_captions
      (under (lit "root/photo1.jpg")
         (omap (xlsx_entry decimal_int [] (lit "root"))
            (data_rows true photo_sheet))).
Proof.
  apply (xlsx_extract_characterised decimal_int photo_disk true
           (lit "book.xlsx") (lit "root")
           (workbook (string_table []) photo_sheet) [] photo_sheet).
  - reflexivity.
  - vm_compute. reflexivity.
  - apply list_elem_of_further, list_elem_of_here.
  - vm_compute. reflexivity.
Defined.

Lemma json_extract_characterised_witness :
  (json_extract plain_repr two_file_disk (lit "data/captions_a.json")
     (lit "images") false).1 !! lit "images/a.jpg"
  = last (under (lit "images/a.jpg")
            (omap (json_entry plain_repr (lit "images"))
               [record "a.jpg" (JStr (lit "first"))])).
Proof.
  apply (json_extract_characterised plain_repr two_file_disk
           (lit "data/captions_a.json") (lit "images")).
  - vm_compute. reflexivity.
  - intros members v Hin Hname _.
    apply list_elem_of_singleton in Hin. injection Hin as ->.
    vm_compute in Hname. injection Hname as <-. by eexists.
Defined.

Lemma consolidated_entries_witness :
  ∃ root file,
    (root, file) ∈ walk_files (os_walk two_file_disk (lit "data"))
    ∧ file_captions decimal_int ascii_lower plain_repr two_file_disk
        (lit "data") false root file
        !! lit "data/rxxch9vw59.2/images/a.jpg"
      = Some [lit "<start>second "].
Proof.
  apply (proj1 (consolidated_entries_come_from_one_file decimal_int ascii_lower
                  plain_repr two_file_disk (lit "data") false
                  (lit "data/rxxch9vw59.2/images/a.jpg"))).
  vm_compute. reflexivity.
Defined.

(** The two files of the sample directory hold different images and share
    one, with the same captions: either order gives the three entries. *)
Lemma walk_order_witness :
  (collect_files decimal_int ascii_lower plain_repr album_disk (lit "data")
     false (∅, [])
     [(lit "data", lit "captions_a.json"); (lit "data", lit "captions_b.json")]).1
  = (collect_files decimal_int ascii_lower plain_repr album_disk (lit "data")
       false (∅, [])
       [(lit "data", lit "captions_b.json"); (lit "data", lit "captions_a.json")]).1.
Proof.
  apply walk_order_is_irrelevant_when_files_agree.
  - apply perm_swap.
  - assert (file_captions decimal_int ascii_lower plain_repr album_disk
              (lit "data") false (lit "data") (lit "captions_a.json")
            = {[ lit "data/rxxch9vw59.2/images/a.jpg" := [lit "<start>x "];
                 lit "data/rxxch9vw59.2/images/c.jpg" := [lit "<start>z "] ]})
      as Ha by (vm_compute; reflexivity).
    assert (file_captions decimal_int ascii_lower plain_repr album_disk
              (lit "data") false (lit "data") (lit "captions_b.json")
            = {[ lit "data/rxxch9vw59.2/images/b.jpg" := [lit "<start>y "];
                 lit "data/rxxch9vw59.2/images/c.jpg" := [lit "<start>z "] ]})
      as Hb by (vm_compute; reflexivity).
    intros root1 file1 root2 file2 K v1 v2 H1 H2.
    apply elem_of_cons in H1 as [H1|H1%list_elem_of_singleton];
      apply elem_of_cons in H2 as [H2|H2%list_elem_of_singleton];
      injection H1 as -> ->; injection H2 as -> ->;
      rewrite ?Ha, ?Hb.
    + congruence.
    + intros [[<- <-]|[_ [<- <-]%lookup_singleton_Some]]%lookup_insert_Some
             [[He <-]|[_ [He <-]%lookup_singleton_Some]]%lookup_insert_Some;
        first [reflexivity | exfalso; revert He; vm_compute; discriminate].
    + intros [[<- <-]|[_ [<- <-]%lookup_singleton_Some]]%lookup_insert_Some
             [[He <-]|[_ [He <-]%lookup_singleton_Some]]%lookup_insert_Some;
        first [reflexivity | exfalso; revert He; vm_compute; discriminate].
    + congruence.
Defined.

Lemma image_names_have_no_hash_witness :
  contains (lit "#") (csv_image_name (lit "a#b#c")) = false
  ∧ contains (lit "#") (xlsx_image_name (lit "a#b#c")) = false.
Proof. apply image_names_have_no_hash. Defined.

Lemma captions_are_trimmed_witness :
  xlsx_formatted_caption (lit "  " ++ lit "hello" ++ lit " ")
  = xlsx_formatted_caption (lit "hello")
  ∧ csv_formatted_caption (lit "  " ++ lit "hello" ++ lit " ")
    = csv_formatted_caption (lit "hello")
  ∧ json_formatted_caption plain_repr (JStr (lit "  " ++ lit "hello" ++ lit " "))
    = json_formatted_caption plain_repr (JStr (lit "hello")).
Proof.
  apply (proj1 (captions_are_trimmed plain_repr)).
  - vm_compute. reflexivity.
  - vm_compute. reflexivity.
Defined.

Lemma image_path_is_the_join_witness :
  image_path (lit "root") (lit "/abs/a.jpg") = lit "/abs/a.jpg".
Proof.
  apply (proj1 (proj2 (image_path_is_the_join (lit "root") (lit "/abs/a.jpg")))).
  vm_compute. reflexivity.
Defined.

Lemma csv_count_witness :
  last (csv_extract photo_disk (lit "ban-cap.csv") (lit "root") false).2
  = Some (FinishedParsing (lit "ban-cap.csv")
            (caption_count
               (csv_extract photo_disk (lit "ban-cap.csv") (lit "root")
                  false).1)).
Proof.
  apply (csv_count_is_the_number_of_captions photo_disk (lit "ban-cap.csv")
           (lit "root") false photo_rows).
  - reflexivity.
  - left. reflexivity.
Defined.

(** On the sample directory one image is in place: with validation the
    collector returns the entry of that image out of the three. *)
Lemma collector_validation_witness :
  (collect_all_caption_data decimal_int ascii_lower plain_repr album_disk
     (lit "data") true).1
  = keep_present album_disk
      (collect_all_caption_data decimal_int ascii_lower plain_repr album_disk
         (lit "data") false).1.
Proof.
  apply (collector_validation_is_a_filter decimal_int ascii_lower plain_repr
           album_disk ltac:(intros p e; simpl; discriminate)).
Defined.

(** The collector on that directory, with validation and without. *)
Example album_scenario :
  (collect_all_caption_data decimal_int ascii_lower plain_repr album_disk
     (lit "data") true).1
  = {[ lit "data/rxxch9vw59.2/images/a.jpg" := [lit "<start>x "] ]}
  ∧ (collect_all_caption_data decimal_int ascii_lower plain_repr album_disk
       (lit "data") false).1
    = {[ lit "data/rxxch9vw59.2/images/a.jpg" := [lit "<start>x "];
         lit "data/rxxch9vw59.2/images/b.jpg" := [lit "<start>y "];
         lit "data/rxxch9vw59.2/images/c.jpg" := [lit "<start>z "] ]}.
Proof. split; vm_compute; reflexivity. Qed.

Lemma plain_cell_resolution_witness :
  get_cell_value decimal_int [lit "unused"] (plain_cell "photo1.jpg#1")
  = Some (lit "photo1.jpg#1").
Proof.
  apply (proj1 (plain_cell_resolution decimal_int) [lit "unused"]
           (plain_cell "photo1.jpg#1")
           (mkElement (ns ++ lit "v") [] (Some (lit "photo1.jpg#1")) [])).
  - vm_compute. discriminate.
  - vm_compute. reflexivity.
  - reflexivity.
  - vm_compute. discriminate.
Defined.
